(** * A shallow embedding of templateer2's template pipeline.

    Sources: [src/templateer2/templateer.py] (the pipeline used by the CLI:
    [TemplateFile], [TemplateConfig], [McpClientManager], [TemplateProcessor])
    and [src/templateer2/parsing.py] ([PydanticModuleLoader]; its copy of
    [TemplateFile.from_file] and [_parse_template_config] is textually the
    same code modulo logging).

    Text is modelled as Rocq [string], i.e. a sequence of 8-bit characters
    (the UTF-8 bytes of the Python [str]). Python's [str.isspace] / regex
    [\s] are modelled on the ASCII range; non-ASCII white space is outside
    the model. *)

From Stdlib Require Import String Ascii List Bool Arith Lia ZArith.
From stdpp Require Import base gmap strings list.

Local Open Scope string_scope.
#[local] Set Warnings "-register-all".

(* ------------------------------------------------------------------ *)
(** ** Python string primitives *)

(** The double-quote character and the one-character string of it. *)
Definition dquote : ascii := "034"%char.
Definition dq : string := String dquote EmptyString.

(** Fixture notation: [bq s] is [s] with each backquote read as a double
    quote, so that test documents can be written as plain literals. *)
Fixpoint bq (s : string) : string :=
  match s with
  | EmptyString => EmptyString
  | String c r => String (if Ascii.eqb c "096"%char then dquote else c) (bq r)
  end.

(** [str.isspace] on one character: \t \n \v \f \r, the file/group/record/
    unit separators 0x1c-0x1f, and the space. *)
Definition py_isspace (c : ascii) : bool :=
  let n := nat_of_ascii c in
  ((9 <=? n)%nat && (n <=? 13)%nat) || ((28 <=? n)%nat && (n <=? 32)%nat).

Definition in_chars (cs : list ascii) (c : ascii) : bool :=
  existsb (Ascii.eqb c) cs.

Fixpoint lstrip_by (p : ascii -> bool) (s : string) : string :=
  match s with
  | EmptyString => EmptyString
  | String c r => if p c then lstrip_by p r else s
  end.

Fixpoint rstrip_by (p : ascii -> bool) (s : string) : string :=
  match s with
  | EmptyString => EmptyString
  | String c r =>
      let r' := rstrip_by p r in
      match r' with
      | EmptyString => if p c then EmptyString else String c EmptyString
      | _ => String c r'
      end
  end.

Definition strip_by (p : ascii -> bool) (s : string) : string :=
  rstrip_by p (lstrip_by p s).

(** [s.strip()] *)
Definition py_strip (s : string) : string := strip_by py_isspace s.

(** [s.strip(chars)]: [chars] is a SET of characters. *)
Definition py_strip_chars (chars : string) (s : string) : string :=
  strip_by (in_chars (list_ascii_of_string chars)) s.

Definition py_startswith (pre s : string) : bool := String.prefix pre s.

Fixpoint str_rev (s : string) : string :=
  match s with
  | EmptyString => EmptyString
  | String c r => String.append (str_rev r) (String c EmptyString)
  end.

Definition py_endswith (suf s : string) : bool :=
  String.prefix (str_rev suf) (str_rev s).

Fixpoint str_contains_char (c : ascii) (s : string) : bool :=
  match s with
  | EmptyString => false
  | String d r => Ascii.eqb c d || str_contains_char c r
  end.

(** [s[1:-1]] *)
Definition py_slice_inner (s : string) : string :=
  substring 1 (String.length s - 2) s.

(** [s[n:]] *)
Definition py_drop (n : nat) (s : string) : string :=
  substring n (String.length s - n) s.

(** [s.split(sep)] for a one-character separator. *)
Fixpoint py_split (sep : ascii) (s : string) : list string :=
  match s with
  | EmptyString => [EmptyString]
  | String c r =>
      let rest := py_split sep r in
      if Ascii.eqb c sep then EmptyString :: rest
      else match rest with
           | h :: t => String c h :: t
           | [] => [String c EmptyString]
           end
  end.

(** [s.split(sep, 1)] when [sep in s]: the text before and after the first
    occurrence. *)
Fixpoint py_split_once (sep : ascii) (s : string) : option (string * string) :=
  match s with
  | EmptyString => None
  | String c r =>
      if Ascii.eqb c sep then Some (EmptyString, r)
      else match py_split_once sep r with
           | Some (a, b) => Some (String c a, b)
           | None => None
           end
  end.

(** [s.replace(old, "")] (all non-overlapping occurrences, left to right);
    the fuel is the length of [s], each step consuming a character. *)
Fixpoint remove_all_fuel (fuel : nat) (old s : string) : string :=
  match fuel with
  | O => s
  | S f =>
      match s with
      | EmptyString => EmptyString
      | String c r =>
          if String.prefix old s
          then remove_all_fuel f old (py_drop (String.length old) s)
          else String c (remove_all_fuel f old r)
      end
  end.

Definition py_remove_all (old s : string) : string :=
  remove_all_fuel (S (String.length s)) old s.

(* ------------------------------------------------------------------ *)
(** ** The two section-marker regular expressions

    [#\s*///\s*script\s*\n(.*?)#\s*///] and
    [#\s*///\s*template\s*\n(.*?)#\s*///], searched with [re.search] and
    [re.DOTALL]. The matcher below is a backtracking matcher for the
    three constructs these patterns use, trying alternatives in the order
    of Python's [re]: a greedy [\s*] tries the longest run first, a lazy
    [(.*?)] the shortest text first, and the search tries start positions
    from left to right. *)

Inductive tok :=
| TLit (c : ascii)      (* a literal character *)
| TWs                   (* \s* , greedy *)
| TLazyAny.             (* (.*?) , lazy, DOTALL; capture group 1 *)

(** Greedy [\s*] followed by the continuation [k]. *)
Fixpoint ws_greedy (k : string -> option (string * string)) (s : string)
  : option (string * string) :=
  match s with
  | String c r =>
      if py_isspace c then
        match ws_greedy k r with
        | Some res => Some res
        | None => k s
        end
      else k s
  | EmptyString => k s
  end.

(** Lazy [(.*?)] followed by [k]; returns the captured text. *)
Fixpoint lazy_any (k : string -> option (string * string)) (s : string)
  : option (string * string) :=
  match k s with
  | Some (_, rest) => Some (EmptyString, rest)
  | None =>
      match s with
      | EmptyString => None
      | String c r =>
          match lazy_any k r with
          | Some (g, rest) => Some (String c g, rest)
          | None => None
          end
      end
  end.

(** Anchored match of a token list; on success, the text of group 1 and the
    unconsumed rest. *)
Fixpoint match_toks (ts : list tok) (s : string) : option (string * string) :=
  match ts with
  | [] => Some (EmptyString, s)
  | TLit c :: ts' =>
      match s with
      | String c' r => if Ascii.eqb c c' then match_toks ts' r else None
      | EmptyString => None
      end
  | TWs :: ts' => ws_greedy (match_toks ts') s
  | TLazyAny :: ts' => lazy_any (match_toks ts') s
  end.

(** A match object: [content[:m.start()]], [m.group(0)], [m.group(1)],
    [content[m.end():]]. *)
Record re_match := {
  m_before : string;
  m_whole : string;
  m_group : string;
  m_after : string
}.

Fixpoint re_search (ts : list tok) (s : string) : option re_match :=
  match match_toks ts s with
  | Some (g, rest) =>
      Some {| m_before := EmptyString;
              m_whole := substring 0 (String.length s - String.length rest) s;
              m_group := g; m_after := rest |}
  | None =>
      match s with
      | EmptyString => None
      | String c r =>
          match re_search ts r with
          | Some m => Some {| m_before := String c (m_before m);
                              m_whole := m_whole m; m_group := m_group m;
                              m_after := m_after m |}
          | None => None
          end
      end
  end.

Definition lits (s : string) : list tok := map TLit (list_ascii_of_string s).

(** [#\s*///\s*<kw>\s*\n(.*?)#\s*///] *)
Definition section_pattern (kw : string) : list tok :=
  [TLit "#"; TWs] ++ lits "///" ++ [TWs] ++ lits kw ++
  [TWs; TLit "010"%char; TLazyAny; TLit "#"; TWs] ++ lits "///".

Definition uv_script_pattern : list tok := section_pattern "script".
Definition template_pattern : list tok := section_pattern "template".

Definition nl : string := String "010"%char EmptyString.

(* ------------------------------------------------------------------ *)
(** ** Python values and [json.loads]

    The configuration values the code handles are Python [str], [list],
    [dict], [int], [float], [bool] and [None] -- exactly the values
    [json.loads] produces -- so one type serves for both. A Python [dict]
    is an association list in insertion order with unique keys. *)

Inductive pyval :=
| PNone
| PBool (b : bool)
| PInt (z : Z)
| PFloat (lexeme : string)   (* a float, by the JSON lexeme it came from *)
| PStr (s : string)
| PList (l : list pyval)
| PDict (kvs : list (string * pyval)).

(** [d[k] = v] on an insertion-ordered dict: an existing key keeps its
    position. *)
Fixpoint dict_set {V} (k : string) (v : V) (d : list (string * V))
  : list (string * V) :=
  match d with
  | [] => [(k, v)]
  | (k', v') :: d' =>
      if String.eqb k k' then (k, v) :: d' else (k', v') :: dict_set k v d'
  end.

Fixpoint dict_get {V} (k : string) (d : list (string * V)) : option V :=
  match d with
  | [] => None
  | (k', v') :: d' => if String.eqb k k' then Some v' else dict_get k d'
  end.

Fixpoint dict_del {V} (k : string) (d : list (string * V))
  : list (string * V) :=
  match d with
  | [] => []
  | (k', v') :: d' => if String.eqb k k' then d' else (k', v') :: dict_del k d'
  end.

(** [d.pop(k, default)] *)
Definition dict_pop {V} (k : string) (d : list (string * V))
  : option V * list (string * V) :=
  (dict_get k d, dict_del k d).

(** *** The decoder of CPython's [json] module (C scanner, [strict=True]).
    [None] is a [JSONDecodeError]. *)

Definition json_ws (c : ascii) : bool :=
  in_chars [" "%char; "009"%char; "010"%char; "013"%char] c.

Definition skip_ws (s : string) : string := lstrip_by json_ws s.

Definition is_digit (c : ascii) : bool :=
  let n := nat_of_ascii c in ((48 <=? n)%nat && (n <=? 57)%nat).

Definition hex_val (c : ascii) : option N :=
  let n := nat_of_ascii c in
  if ((48 <=? n)%nat && (n <=? 57)%nat) then Some (N.of_nat (n - 48))
  else if ((97 <=? n)%nat && (n <=? 102)%nat) then Some (N.of_nat (n - 87))
  else if ((65 <=? n)%nat && (n <=? 70)%nat) then Some (N.of_nat (n - 55))
  else None.

(** Four hex digits of a [\uXXXX] escape. *)
Definition hex4 (s : string) : option (N * string) :=
  match s with
  | String a (String b (String c (String d r))) =>
      match hex_val a, hex_val b, hex_val c, hex_val d with
      | Some x, Some y, Some z, Some w =>
          Some ((((x * 16 + y) * 16 + z) * 16 + w)%N, r)
      | _, _, _, _ => None
      end
  | _ => None
  end.

Definition byte (n : N) : ascii := ascii_of_N n.

(** The decoded code point, as the UTF-8 bytes of the Python [str]
    (a lone surrogate is encoded like any other code point below 0x10000). *)
Definition utf8_encode (cp : N) : string :=
  if (cp <? 128)%N then String (byte cp) EmptyString
  else if (cp <? 2048)%N then
    String (byte (192 + cp / 64)) (String (byte (128 + cp mod 64)) EmptyString)
  else if (cp <? 65536)%N then
    String (byte (224 + cp / 4096))
      (String (byte (128 + (cp / 64) mod 64))
         (String (byte (128 + cp mod 64)) EmptyString))
  else
    String (byte (240 + cp / 262144))
      (String (byte (128 + (cp / 4096) mod 64))
         (String (byte (128 + (cp / 64) mod 64))
            (String (byte (128 + cp mod 64)) EmptyString))).

Definition is_high_surrogate (c : N) : bool := ((55296 <=? c) && (c <=? 56319))%N.
Definition is_low_surrogate (c : N) : bool := ((56320 <=? c) && (c <=? 57343))%N.

(** [scanstring]: the body of a string literal after its opening quote;
    returns the decoded text and the rest after the closing quote. Each
    step consumes at least one character, so [fuel = length s + 1] is
    enough. *)
Fixpoint scanstring (fuel : nat) (s : string) : option (string * string) :=
  match fuel with
  | O => None
  | S f =>
      match s with
      | EmptyString => None                          (* Unterminated string *)
      | String c r =>
          if Ascii.eqb c dquote then Some (EmptyString, r)
          else if Ascii.eqb c "\" then
            match r with
            | EmptyString => None
            | String e r' =>
                let simple (d : ascii) :=
                  match scanstring f r' with
                  | Some (t, rest) => Some (String d t, rest)
                  | None => None
                  end in
                if Ascii.eqb e dquote then simple dquote
                else if Ascii.eqb e "\" then simple "\"%char
                else if Ascii.eqb e "/" then simple "/"%char
                else if Ascii.eqb e "b" then simple "008"%char
                else if Ascii.eqb e "f" then simple "012"%char
                else if Ascii.eqb e "n" then simple "010"%char
                else if Ascii.eqb e "r" then simple "013"%char
                else if Ascii.eqb e "t" then simple "009"%char
                else if Ascii.eqb e "u" then
                  match hex4 r' with
                  | None => None                      (* Invalid \uXXXX escape *)
                  | Some (cp, r2) =>
                      let single :=
                        match scanstring f r2 with
                        | Some (t, rest) => Some (String.append (utf8_encode cp) t, rest)
                        | None => None
                        end in
                      if is_high_surrogate cp then
                        match r2 with
                        | String "\" (String "u" r3) =>
                            match hex4 r3 with
                            | None => None
                            | Some (cp2, r4) =>
                                if is_low_surrogate cp2 then
                                  let joined :=
                                    (65536 + (cp - 55296) * 1024 + (cp2 - 56320))%N in
                                  match scanstring f r4 with
                                  | Some (t, rest) =>
                                      Some (String.append (utf8_encode joined) t, rest)
                                  | None => None
                                  end
                                else single
                            end
                        | _ => single
                        end
                      else single
                  end
                else None                             (* Invalid \escape *)
            end
          else if (nat_of_ascii c <? 32)%nat then None (* Invalid control character *)
          else match scanstring f r with
               | Some (t, rest) => Some (String c t, rest)
               | None => None
               end
      end
  end.

Fixpoint take_digits (s : string) : string * string :=
  match s with
  | String c r =>
      if is_digit c then let '(d, rest) := take_digits r in (String c d, rest)
      else (EmptyString, s)
  | EmptyString => (EmptyString, EmptyString)
  end.

Definition digits_value (d : string) : Z :=
  fold_left (fun acc c => (acc * 10 + Z.of_nat (nat_of_ascii c - 48))%Z)
    (list_ascii_of_string d) 0%Z.

(** [NUMBER_RE]: an optional minus, then [0] or a non-zero digit followed by
    digits; an optional fraction (a dot and at least one digit); an optional
    exponent ([e] or [E], an optional sign, at least one digit). The
    optional parts are skipped when incomplete, as the regex backtracks. *)
Definition match_number (s : string) : option (pyval * string) :=
  let '(neg, s1) :=
    match s with String "-" r => (true, r) | _ => (false, s) end in
  let int_part :=
    match s1 with
    | String "0" r => Some ("0", r)
    | String c _ =>
        if is_digit c then Some (take_digits s1) else None
    | EmptyString => None
    end in
  match int_part with
  | None => None
  | Some (ip, s2) =>
      let '(frac, s3) :=
        match s2 with
        | String "." r =>
            let '(d, r') := take_digits r in
            match d with
            | EmptyString => (EmptyString, s2)
            | _ => (String "." d, r')
            end
        | _ => (EmptyString, s2)
        end in
      let '(exp, s4) :=
        match s3 with
        | String e r =>
            if Ascii.eqb e "e" || Ascii.eqb e "E" then
              let '(sgn, r1) :=
                match r with
                | String "+" r' => (String "+" EmptyString, r')
                | String "-" r' => (String "-" EmptyString, r')
                | _ => (EmptyString, r)
                end in
              let '(d, r2) := take_digits r1 in
              match d with
              | EmptyString => (EmptyString, s3)
              | _ => (String e (String.append sgn d), r2)
              end
            else (EmptyString, s3)
        | EmptyString => (EmptyString, s3)
        end in
      let lexeme :=
        String.append (if neg then "-" else "") (String.append ip (String.append frac exp)) in
      match frac, exp with
      | EmptyString, EmptyString =>
          Some (PInt (if neg then Z.opp (digits_value ip) else digits_value ip), s4)
      | _, _ => Some (PFloat lexeme, s4)
      end
  end.

(** The element loop of [JSONArray], after the first element's position;
    [scan] reads one value. Each iteration but the last consumes a comma,
    so [n = length + 1] iterations are enough. *)
Fixpoint array_elems (scan : string -> option (pyval * string)) (n : nat) (s0 : string)
  (acc : list pyval) : option (pyval * string) :=
  match n with
  | O => None
  | S n' =>
      match scan s0 with
      | None => None                                   (* Expecting value *)
      | Some (v, s1) =>
          match skip_ws s1 with
          | String c s2 =>
              if Ascii.eqb c "]" then Some (PList (rev (v :: acc)), s2)
              else if Ascii.eqb c "," then array_elems scan n' (skip_ws s2) (v :: acc)
              else None                                (* Expecting ',' delimiter *)
          | EmptyString => None
          end
      end
  end.

(** The member loop of [JSONObject]; the dict is built with [d[key] = v]. *)
Fixpoint object_members (scan : string -> option (pyval * string)) (n : nat) (s0 : string)
  (acc : list (string * pyval)) : option (pyval * string) :=
  match n with
  | O => None
  | S n' =>
      match s0 with
      | String c r0 =>
          if Ascii.eqb c dquote then
            match scanstring (S (String.length r0)) r0 with
            | None => None
            | Some (key, s1) =>
                match skip_ws s1 with
                | String ":" s2 =>
                    match scan (skip_ws s2) with
                    | None => None
                    | Some (v, s3) =>
                        let acc' := dict_set key v acc in
                        match skip_ws s3 with
                        | String c3 s4 =>
                            if Ascii.eqb c3 "}" then Some (PDict acc', s4)
                            else if Ascii.eqb c3 "," then
                              object_members scan n' (skip_ws s4) acc'
                            else None                  (* Expecting ',' delimiter *)
                        | EmptyString => None
                        end
                    end
                | _ => None                            (* Expecting ':' delimiter *)
                end
            end
          else None      (* Expecting property name enclosed in double quotes *)
      | EmptyString => None
      end
  end.

(** [scan_once]: one JSON value at the start of [s]. [depth] bounds the
    nesting of containers, each of which consumes its opening bracket, so
    [length s + 1] is enough. (CPython's own nesting limit, a
    [RecursionError], is not modelled.) *)
Fixpoint scan_once (depth : nat) (s : string) : option (pyval * string) :=
  match depth with
  | O => None
  | S d =>
      match s with
      | String "034" r =>
          match scanstring (S (String.length r)) r with
          | Some (t, rest) => Some (PStr t, rest)
          | None => None
          end
      | String "{" r =>
          let r := skip_ws r in
          match r with
          | String c r' =>
              if Ascii.eqb c "}" then Some (PDict [], r')
              else object_members (scan_once d) (S (String.length r)) r []
          | EmptyString => None
          end
      | String "[" r =>
          let r := skip_ws r in
          match r with
          | String c r' =>
              if Ascii.eqb c "]" then Some (PList [], r')
              else array_elems (scan_once d) (S (String.length r)) r []
          | EmptyString => None
          end
      | _ =>
          if String.prefix "null" s then Some (PNone, py_drop 4 s)
          else if String.prefix "true" s then Some (PBool true, py_drop 4 s)
          else if String.prefix "false" s then Some (PBool false, py_drop 5 s)
          else match match_number s with
               | Some res => Some res
               | None =>
                   if String.prefix "NaN" s then Some (PFloat "NaN", py_drop 3 s)
                   else if String.prefix "Infinity" s then Some (PFloat "Infinity", py_drop 8 s)
                   else if String.prefix "-Infinity" s then Some (PFloat "-Infinity", py_drop 9 s)
                   else None
               end
      end
  end.

(** The UTF-8 encoding of U+FEFF. *)
Definition utf8_bom : string :=
  String (ascii_of_nat 239) (String (ascii_of_nat 187) (String (ascii_of_nat 191) EmptyString)).

(** [json.loads(s)] on a [str]: [None] is a [JSONDecodeError]. *)
Definition json_loads (s : string) : option pyval :=
  if String.prefix utf8_bom s then None              (* Unexpected UTF-8 BOM *)
  else
    let s0 := skip_ws s in
    match scan_once (S (String.length s0)) s0 with
    | None => None                                    (* Expecting value *)
    | Some (v, rest) =>
        match skip_ws rest with
        | EmptyString => Some v
        | _ => None                                   (* Extra data *)
        end
    end.

(* ------------------------------------------------------------------ *)
(** ** [TemplateFile._parse_template_config] *)

(** The permissive list fallback: [value[1:-1].split(",")], keeping the
    items whose [item.strip()] is non-empty, each mapped to [item.strip()]
    stripped of all leading and trailing double and single quotes. *)
Definition fallback_items (value : string) : list string :=
  map (fun item => py_strip_chars (dq ++ "'") (py_strip item))
    (filter (fun item => negb (String.eqb (py_strip item) ""))
       (py_split "," (py_slice_inner value))).

(** Remove one pair of surrounding double or single quotes. *)
Definition unquote (value : string) : string :=
  if py_startswith dq value && py_endswith dq value then py_slice_inner value
  else if py_startswith "'" value && py_endswith "'" value then py_slice_inner value
  else value.

(** The value stored for a [key = value] line. *)
Definition config_value (raw_value : string) : pyval :=
  let value := unquote (py_strip raw_value) in
  if py_startswith "[" value && py_endswith "]" value then
    match json_loads value with
    | Some list_value => list_value
    | None => PList (map PStr (fallback_items value))
    end
  else PStr value.

(** One iteration of the loop over [config_text.split("\n")]. *)
Definition parse_config_line (config : list (string * pyval)) (raw_line : string)
  : list (string * pyval) :=
  let line := py_strip (py_strip_chars "#" (py_strip raw_line)) in
  if String.eqb line "" then config
  else if str_contains_char "=" line then
    match py_split_once "=" line with
    | Some (key, value) => dict_set (py_strip key) (config_value value) config
    | None => config
    end
  else config.

Definition parse_config_lines (lines : list string) : list (string * pyval) :=
  fold_left parse_config_line lines [].

Definition _parse_template_config (config_text : string) : list (string * pyval) :=
  parse_config_lines (py_split "010"%char config_text).

(* ------------------------------------------------------------------ *)
(** ** Exceptions, the world and the effect monad *)

Inductive exc_class :=
| ValueError | JSONDecodeError | ValidationError | TypeError | AttributeError
| FileNotFoundError | PermissionError | IsADirectoryError | FileExistsError
| NotADirectoryError | UnicodeEncodeError
| ImportError | RuntimeError
| CancelledError.   (* asyncio.CancelledError: a BaseException only *)

Record py_exc := { exc_type : exc_class; exc_msg : string }.

(** [isinstance(e, Exception)] *)
Definition is_Exception (e : py_exc) : bool :=
  match exc_type e with CancelledError => false | _ => true end.

Inductive outcome (A : Type) :=
| Returns (a : A)
| Raises (e : py_exc).
Arguments Returns {A} a.
Arguments Raises {A} e.

(** What the files the code reads look like. *)
Inductive fs_entry :=
| FFile (contents : string)
| FDir
| FMissing
| FNoAccess.   (* exists, but reading it is denied *)

(** [open(p).read()] / [Path(p).read_text()] *)
Definition read_file (fs : string -> fs_entry) (p : string) : outcome string :=
  match fs p with
  | FFile c => Returns c
  | FDir => Raises {| exc_type := IsADirectoryError; exc_msg := "Is a directory: " ++ p |}
  | FMissing => Raises {| exc_type := FileNotFoundError; exc_msg := "No such file or directory: " ++ p |}
  | FNoAccess => Raises {| exc_type := PermissionError; exc_msg := "Permission denied: " ++ p |}
  end.

(** [Path(p).exists()] *)
Definition path_exists (fs : string -> fs_entry) (p : string) : bool :=
  match fs p with FMissing => false | _ => true end.

(** [Path(base) / p] on the string form of the paths. *)
Definition path_join (base p : string) : string :=
  if py_startswith "/" p then p
  else if String.eqb p "" then base
  else if String.eqb base "." then p
  else if py_endswith "/" base then base ++ p
  else base ++ "/" ++ p.

Fixpoint last_slash_split (s : string) : option (string * string) :=
  match s with
  | EmptyString => None
  | String c r =>
      match last_slash_split r with
      | Some (d, n) => Some (String c d, n)
      | None => if Ascii.eqb c "/" then Some (EmptyString, r) else None
      end
  end.

(** [Path(p).parent] and [Path(p).name] *)
Definition path_parent (p : string) : string :=
  match last_slash_split p with
  | Some (EmptyString, _) => "/"
  | Some (d, _) => d
  | None => "."
  end.

Definition path_name (p : string) : string :=
  match last_slash_split p with Some (_, n) => n | None => p end.

Fixpoint last_dot_index (s : string) (i : nat) (acc : option nat) : option nat :=
  match s with
  | EmptyString => acc
  | String c r => last_dot_index r (S i) (if Ascii.eqb c "." then Some i else acc)
  end.

(** [Path(p).stem]: [name[:i]] for [i = name.rfind('.')] when
    [0 < i < len(name) - 1], the whole name otherwise. *)
Definition path_stem (p : string) : string :=
  let name := path_name p in
  match last_dot_index name 0 None with
  | Some i => if (0 <? i)%nat && (i <? String.length name - 1)%nat
              then substring 0 i name else name
  | None => name
  end.

(** *** Python objects seen by the schema extractor *)

(** A class object: its identity, [__name__], the identities of its
    [__mro__] (itself first), what [inspect.getdoc] returns for it, and its
    [model_fields] (field name to a description of its annotation and
    whether it is required) when it has that attribute. *)
Record PyClass := {
  cls_id : nat;
  cls_name : string;
  cls_mro : list nat;
  cls_getdoc : option string;
  cls_model_fields : option (list (string * (string * bool)))
}.

Inductive PyObj :=
| OClass (c : PyClass)
| OValue (v : pyval)
| OFunction (qualname : string)
| OModule (name : string).

(** [pydantic.BaseModel], identity 0 ([object] is 1). *)
Definition basemodel_id : nat := 0.
Definition BaseModel : PyClass :=
  {| cls_id := basemodel_id; cls_name := "BaseModel"; cls_mro := [0; 1]%nat;
     cls_getdoc := Some "Usage docs: https://docs.pydantic.dev/2.10/concepts/models/";
     cls_model_fields := Some [] |}.

(** A module: its [__name__] and its namespace ([__dict__]). *)
Record PyModule := { mod_name : string; mod_ns : gmap string PyObj }.

Inductive event :=
| EvMcpInit
| EvMcpClose
| EvRender
| EvWrite (path : string).

(** The mutable state the code touches: standard output, [sys.modules],
    the files it writes, and the order of the pipeline's steps. *)
Record world := {
  w_stdout : list string;
  w_sys_modules : gmap string PyModule;
  w_files : gmap string string;
  w_trace : list event
}.

Definition PyM (A : Type) : Type := world -> outcome A * world.

Definition py_ret {A} (a : A) : PyM A := fun w => (Returns a, w).
Definition py_bind {A B} (f : A -> PyM B) (m : PyM A) : PyM B :=
  fun w => match m w with
           | (Returns a, w') => f a w'
           | (Raises e, w') => (Raises e, w')
           end.
Global Instance PyM_ret : MRet PyM := @py_ret.
Global Instance PyM_bind : MBind PyM := @py_bind.

Definition raise {A} (e : py_exc) : PyM A := fun w => (Raises e, w).
Definition raise_ {A} (t : exc_class) (msg : string) : PyM A :=
  raise {| exc_type := t; exc_msg := msg |}.
Definition lift {A} (o : outcome A) : PyM A := fun w => (o, w).

Definition modify_world (f : world -> world) : PyM unit := fun w => (Returns tt, f w).

Definition print (s : string) : PyM unit :=
  modify_world (fun w => {| w_stdout := w_stdout w ++ [s]; w_sys_modules := w_sys_modules w;
                            w_files := w_files w; w_trace := w_trace w |}).

Definition record_event (ev : event) : PyM unit :=
  modify_world (fun w => {| w_stdout := w_stdout w; w_sys_modules := w_sys_modules w;
                            w_files := w_files w; w_trace := w_trace w ++ [ev] |}).

(** [try: m except <matching>: h(e)] *)
Definition try_except {A} (m : PyM A) (catches : py_exc -> bool) (h : py_exc -> PyM A)
  : PyM A :=
  fun w => match m w with
           | (Raises e, w') => if catches e then h e w' else (Raises e, w')
           | r => r
           end.

(** [try: m finally: fin] *)
Definition try_finally {A} (m : PyM A) (fin : PyM unit) : PyM A :=
  fun w => let '(r, w1) := m w in
           match fin w1 with
           | (Returns _, w2) => (r, w2)
           | (Raises e, w2) => (Raises e, w2)
           end.

(* ------------------------------------------------------------------ *)
(** ** [TemplateConfig.from_raw_config] (templateer.py) *)

Record McpServerConfig := {
  command : string;
  args : list string;
  env : option (list (string * string))
}.

Record TemplateConfig := {
  output_file : option string;
  imports : list string;
  reference_file : option string;
  mcp_servers : list (string * McpServerConfig);
  mcp_tools : list string;
  mcp_resources : list string;
  extra_params : list (string * pyval)
}.

Definition validation_error {A} : outcome A :=
  Raises {| exc_type := ValidationError; exc_msg := "validation error" |}.

Fixpoint str_list (l : list pyval) : option (list string) :=
  match l with
  | [] => Some []
  | PStr s :: l' => match str_list l' with Some r => Some (s :: r) | None => None end
  | _ => None
  end.

Fixpoint str_dict (l : list (string * pyval)) : option (list (string * string)) :=
  match l with
  | [] => Some []
  | (k, PStr s) :: l' => match str_dict l' with Some r => Some ((k, s) :: r) | None => None end
  | _ => None
  end.

(** Pydantic's validation of a [List[str]] field. *)
Definition validate_str_list (v : pyval) : outcome (list string) :=
  match v with
  | PList l => match str_list l with Some r => Returns r | None => validation_error end
  | _ => validation_error
  end.

(** [McpServerConfig] called with [server_config] unpacked as keyword
    arguments: a [TypeError] unless the value is a
    mapping; pydantic validates [command: str], [args: List[str] = []],
    [env: Optional[Dict[str, str]] = None]; unknown keys are ignored. *)
Definition make_McpServerConfig (server_config : pyval) : outcome McpServerConfig :=
  match server_config with
  | PDict kvs =>
      match dict_get "command" kvs with
      | Some (PStr c) =>
          let args_r :=
            match dict_get "args" kvs with
            | None => Returns []
            | Some a => validate_str_list a
            end in
          let env_r :=
            match dict_get "env" kvs with
            | None | Some PNone => Returns None
            | Some (PDict e) =>
                match str_dict e with Some r => Returns (Some r) | None => validation_error end
            | Some _ => validation_error
            end in
          match args_r, env_r with
          | Returns a, Returns e => Returns {| command := c; args := a; env := e |}
          | _, _ => validation_error
          end
      | _ => validation_error
      end
  | _ => Raises {| exc_type := TypeError;
                   exc_msg := "argument after ** must be a mapping" |}
  end.

(** [for server_name, server_config in servers_config.items():
       mcp_servers[server_name] = McpServerConfig(...)]
    The dict is filled in place: when an entry raises, the entries before
    it stay in [mcp_servers]. *)
Fixpoint add_servers (items : list (string * pyval)) (acc : list (string * McpServerConfig))
  : list (string * McpServerConfig) * option py_exc :=
  match items with
  | [] => (acc, None)
  | (name, sc) :: items' =>
      match make_McpServerConfig sc with
      | Returns c => add_servers items' (dict_set name c acc)
      | Raises e => (acc, Some e)
      end
  end.

(** [servers_config.items()] followed by the loop; [.items()] on anything
    but a dict is an [AttributeError]. *)
Definition load_server_items (servers_config : pyval)
  : list (string * McpServerConfig) * option py_exc :=
  match servers_config with
  | PDict items => add_servers items []
  | _ => ([], Some {| exc_type := AttributeError; exc_msg := "object has no attribute 'items'" |})
  end.

(** [json.loads(v)] on any value. *)
Definition json_loads_value (v : pyval) : outcome pyval :=
  match v with
  | PStr s =>
      match json_loads s with
      | Some r => Returns r
      | None => Raises {| exc_type := JSONDecodeError; exc_msg := "Expecting value" |}
      end
  | _ => Raises {| exc_type := TypeError;
                   exc_msg := "the JSON object must be str, bytes or bytearray" |}
  end.

(** The [except] clauses of the two branches. *)
Definition catches_file_errors (e : py_exc) : bool :=
  match exc_type e with FileNotFoundError | JSONDecodeError | TypeError => true | _ => false end.

Definition catches_inline_errors (e : py_exc) : bool :=
  match exc_type e with JSONDecodeError | TypeError => true | _ => false end.

(** [isinstance(v, str) and (v.endswith(".json") or v.startswith("file:"))]
    on a str: the value names a file of server definitions. *)
Definition is_file_reference (s : string) : bool :=
  py_endswith ".json" s || py_startswith "file:" s.

(** The file a [mcp-servers] file reference names: without its [file:]
    prefix, and under [base_dir] when there is one. *)
Definition mcp_servers_file_path (base_dir : option string) (s : string) : string :=
  let file_path := if py_startswith "file:" s then py_drop 5 s else s in
  match base_dir with Some b => path_join b file_path | None => file_path end.

(** The [mcp-servers] branch of [from_raw_config], given the popped value. *)
Definition load_mcp_servers (fs : string -> fs_entry) (base_dir : option string)
  (servers_config_value : pyval) : PyM (list (string * McpServerConfig)) :=
  match servers_config_value with
  | PStr s =>
      if is_file_reference s then
        let file_path := mcp_servers_file_path base_dir s in
        let handler (acc : list (string * McpServerConfig)) (e : py_exc) :=
          if catches_file_errors e then
            print ("Error loading MCP server config from file " ++ file_path ++ ": " ++ exc_msg e)
            ;; mret acc
          else raise e in
        match read_file fs file_path with
        | Raises e => handler [] e
        | Returns text =>
            match json_loads_value (PStr text) with
            | Raises e => handler [] e
            | Returns servers_config =>
                print ("Loaded MCP server config from file: " ++ file_path) ;;
                match load_server_items servers_config with
                | (acc, None) => mret acc
                | (acc, Some e) => handler acc e
                end
            end
        end
      else
        (* inline JSON *)
        let handler (acc : list (string * McpServerConfig)) (e : py_exc) :=
          if catches_inline_errors e then
            print ("Error parsing inline mcp-servers config: " ++ exc_msg e) ;; mret acc
          else raise e in
        match json_loads_value servers_config_value with
        | Raises e => handler [] e
        | Returns servers_config =>
            match load_server_items servers_config with
            | (acc, None) => mret acc
            | (acc, Some e) => handler acc e
            end
        end
  | _ =>
      (* not a str: the inline branch, where [json.loads] raises TypeError *)
      match json_loads_value servers_config_value with
      | Raises e =>
          if catches_inline_errors e then
            print ("Error parsing inline mcp-servers config: " ++ exc_msg e) ;; mret []
          else raise e
      | Returns _ => mret []    (* unreachable: json.loads only accepts a str *)
      end
  end.

Fixpoint float_lexeme_zero (s : string) : bool :=
  match s with
  | EmptyString => true
  | String c r =>
      if Ascii.eqb c "e" || Ascii.eqb c "E" then true
      else (Ascii.eqb c "0" || Ascii.eqb c "." || Ascii.eqb c "-") && float_lexeme_zero r
  end.

(** [bool(v)] *)
Definition py_truthy (v : pyval) : bool :=
  match v with
  | PNone => false
  | PBool b => b
  | PInt z => negb (Z.eqb z 0)
  | PFloat lx => negb (float_lexeme_zero lx)
  | PStr s => negb (String.eqb s "")
  | PList l => negb (Nat.eqb (length l) 0)
  | PDict d => negb (Nat.eqb (length d) 0)
  end.

(** [reference_file] after the [if reference_file:] block: [Path(...)]
    joined to [base_dir], or the original value when it is falsy. *)
Inductive ref_value := RefAbsent | RefPath (p : string) | RefRaw (v : pyval).

Definition convert_reference_file (base_dir : option string) (rf : option pyval)
  : PyM ref_value :=
  match rf with
  | None => mret RefAbsent
  | Some v =>
      if py_truthy v then
        match v with
        | PStr s =>
            let p := match base_dir with Some b => path_join b s | None => s end in
            print ("    Reference file: " ++ p) ;; mret (RefPath p)
        | _ => raise_ TypeError "expected str, bytes or os.PathLike object"
        end
      else mret (RefRaw v)
  end.

(** Pydantic's validation of the [TemplateConfig(...)] call. *)
Definition validate_opt_str (v : option pyval) : outcome (option string) :=
  match v with
  | None | Some PNone => Returns None
  | Some (PStr s) => Returns (Some s)
  | Some _ => validation_error
  end.

Definition validate_list_default (v : option pyval) : outcome (list string) :=
  match v with None => Returns [] | Some l => validate_str_list l end.

Definition validate_opt_path (r : ref_value) : outcome (option string) :=
  match r with
  | RefAbsent | RefRaw PNone => Returns None
  | RefPath p => Returns (Some p)
  | RefRaw (PStr s) => Returns (Some (if String.eqb s "" then "." else s))
  | RefRaw _ => validation_error
  end.

Definition construct_TemplateConfig (output_file_v : option pyval) (imports_v : option pyval)
  (ref : ref_value) (servers : list (string * McpServerConfig))
  (tools_v resources_v : option pyval) (extra : list (string * pyval))
  : outcome TemplateConfig :=
  match validate_opt_str output_file_v, validate_list_default imports_v,
        validate_opt_path ref, validate_list_default tools_v,
        validate_list_default resources_v with
  | Returns o, Returns i, Returns r, Returns t, Returns rs =>
      Returns {| output_file := o; imports := i; reference_file := r;
                 mcp_servers := servers; mcp_tools := t; mcp_resources := rs;
                 extra_params := extra |}
  | _, _, _, _, _ => validation_error
  end.

Definition from_raw_config (fs : string -> fs_entry) (config_dict : list (string * pyval))
  (base_dir : option string) : PyM TemplateConfig :=
  let '(output_file_v, d1) := dict_pop "output-file" config_dict in
  let '(imports_v, d2) := dict_pop "imports" d1 in
  let '(reference_file_v, d3) := dict_pop "reference-file" d2 in
  servers ← match dict_get "mcp-servers" d3 with
            | Some v => load_mcp_servers fs base_dir v
            | None => mret []
            end;
  let d4 := dict_del "mcp-servers" d3 in
  let '(tools_v, d5) := dict_pop "mcp-tools" d4 in
  let '(resources_v, d6) := dict_pop "mcp-resources" d5 in
  ref ← convert_reference_file base_dir reference_file_v;
  lift (construct_TemplateConfig output_file_v imports_v ref servers tools_v resources_v d6).

(* ------------------------------------------------------------------ *)
(** ** [TemplateFile.from_file] *)

Record TemplateFile := {
  tf_path : string;
  python_code : string;
  template_content : string;
  config : TemplateConfig
}.

(** The text the configuration-block pattern is searched in: the file
    content with every occurrence of the first dependency ("script") block
    removed, then stripped, when there is such a block. *)
Definition drop_uv_script (content : string) : string :=
  match re_search uv_script_pattern content with
  | Some uv_match => py_strip (py_remove_all (m_whole uv_match) content)
  | None => content
  end.

(** [template_content]: [content[m.end():]] stripped of white space, then
    [.strip(...)] with a string of three double quotes -- which [str.strip]
    reads as the SET of characters to remove, i.e. every leading and
    trailing double quote -- then stripped of white space again. *)
Definition template_region (after : string) : string :=
  py_strip (py_strip_chars (dq ++ dq ++ dq) (py_strip after)).

Definition from_file (fs : string -> fs_entry) (file_path : string) : PyM TemplateFile :=
  if negb (path_exists fs file_path)
  then raise_ FileNotFoundError ("Template file not found: " ++ file_path)
  else
    raw ← lift (read_file fs file_path);
    let content := drop_uv_script raw in
    match re_search template_pattern content with
    | None =>
        raise_ ValueError
          ("Could not find template section marker '# /// template' in " ++ file_path)
    | Some template_match =>
        let config_dict := _parse_template_config (py_strip (m_group template_match)) in
        cfg ← from_raw_config fs config_dict (Some (path_parent file_path));
        mret {| tf_path := file_path;
                python_code := py_strip (m_before template_match);
                template_content := template_region (m_after template_match);
                config := cfg |}
    end.

(* ------------------------------------------------------------------ *)
(** ** [PydanticModuleLoader] (parsing.py) *)

Fixpoint digits_rev (fuel n : nat) : string :=
  match fuel with
  | O => EmptyString
  | S f =>
      let d := String (ascii_of_nat (48 + n mod 10)) EmptyString in
      if (n <? 10)%nat then d else String.append (digits_rev f (n / 10)) d
  end.

(** [str(n)] for a natural number. *)
Definition nat_to_string (n : nat) : string := digits_rev (S n) n.

Definition tempdir : string := "/tmp".

Definition sys_modules_set (name : string) (m : PyModule) : PyM unit :=
  modify_world (fun w => {| w_stdout := w_stdout w;
                            w_sys_modules := <[name := m]> (w_sys_modules w);
                            w_files := w_files w; w_trace := w_trace w |}).

Definition write_text (p contents : string) : PyM unit :=
  modify_world (fun w => {| w_stdout := w_stdout w; w_sys_modules := w_sys_modules w;
                            w_files := <[p := contents]> (w_files w); w_trace := w_trace w |}).

Definition unlink_if_exists (p : string) : PyM unit :=
  modify_world (fun w => {| w_stdout := w_stdout w; w_sys_modules := w_sys_modules w;
                            w_files := delete p (w_files w); w_trace := w_trace w |}).

(** What running a code region does besides filling its namespace: the
    modules the import system loads for its [import] statements, in the
    order it loads them (each is put in [sys.modules] under its name if
    that name is not there yet), and the files written meanwhile (the
    bytecode caches of those modules). *)
Record exec_effects := {
  ex_imports : list (string * PyModule);
  ex_writes : list (string * string)
}.

(** [import name]: [sys.modules[name]] is set when the name is not there. *)
Definition add_import (mods : gmap string PyModule) (nm : string * PyModule)
  : gmap string PyModule :=
  match mods !! fst nm with
  | Some _ => mods
  | None => <[fst nm := snd nm]> mods
  end.

Definition import_modules (l : list (string * PyModule)) : PyM unit :=
  modify_world (fun w => {| w_stdout := w_stdout w;
                            w_sys_modules := fold_left add_import l (w_sys_modules w);
                            w_files := w_files w; w_trace := w_trace w |}).

Definition write_files (l : list (string * string)) : PyM unit :=
  modify_world (fun w => {| w_stdout := w_stdout w; w_sys_modules := w_sys_modules w;
                            w_files := fold_left (fun fs pc => <[fst pc := snd pc]> fs) l (w_files w);
                            w_trace := w_trace w |}).

(** [importlib.util.cache_from_source(temp_file)] for the temporary file
    [tempdir/<module_name>.py], with the cache tag [tag]. *)
Definition bytecode_cache_path (tag module_name : string) : string :=
  tempdir ++ "/__pycache__/" ++ module_name ++ "." ++ tag ++ ".pyc".

Section ModuleLoading.

(** Executing the code of a module ([spec.loader.exec_module]): the
    namespace as it stands when execution stops, and the exception that
    stopped it, if any. The Python interpreter itself is not modelled. *)
Variable exec_module : string -> gmap string PyObj * option py_exc.

(** The imports and file writes of that execution. *)
Variable exec_effects_of : string -> exec_effects.

(** [SourceLoader.get_code]: the bytecode of the source when it compiles
    ([None] on a SyntaxError, which [exec_module] then raises). *)
Variable compile_code : string -> option string.

(** [sys.implementation.cache_tag] (with the optimisation suffix under
    [-O]) when [get_code] writes bytecode caches, i.e. when
    [sys.dont_write_bytecode] is unset and the cache can be written;
    [None] otherwise (a failed cache write is silently skipped). *)
Variable pyc_tag : option string.

(** The cache [get_code] writes for a source that compiles. *)
Definition cache_bytecode (module_name python_code : string) : PyM unit :=
  modify_world (fun w =>
    {| w_stdout := w_stdout w; w_sys_modules := w_sys_modules w;
       w_files := match compile_code python_code, pyc_tag with
                  | Some bc, Some tag => <[bytecode_cache_path tag module_name := bc]> (w_files w)
                  | _, _ => w_files w
                  end;
       w_trace := w_trace w |}).

(** [_load_as_module(python_code)]; [code_id] is [id(python_code)]. *)
Definition _load_as_module (python_code : string) (code_id : nat) : PyM PyModule :=
  let module_name := "pydantic_module_" ++ nat_to_string code_id in
  let temp_file := tempdir ++ "/" ++ module_name ++ ".py" in
  try_finally
    (write_text temp_file python_code ;;
     (* spec_from_file_location never returns None for a ".py" path *)
     let module := {| mod_name := module_name; mod_ns := ∅ |} in
     sys_modules_set module_name module ;;
     (* [exec_module]: [get_code] compiles the source and caches its
        bytecode, then the code runs *)
     cache_bytecode module_name python_code ;;
     import_modules (ex_imports (exec_effects_of python_code)) ;;
     write_files (ex_writes (exec_effects_of python_code)) ;;
     let '(ns, err) := exec_module python_code in
     let module' := {| mod_name := module_name; mod_ns := ns |} in
     (* the module object in sys.modules is the one exec_module fills *)
     sys_modules_set module_name module' ;;
     match err with
     | None => mret module'
     | Some e => raise e
     end)
    (unlink_if_exists temp_file).

End ModuleLoading.

Record PydanticClassInfo := {
  pci_cls : PyClass;
  pci_doc : string;
  pci_fields : list (string * (string * bool))
}.

(** [inspect.isclass(obj) and issubclass(obj, BaseModel) and obj != BaseModel]
    ([issubclass] by the MRO; classes compare by identity). *)
Definition is_pydantic_class (obj : PyObj) : bool :=
  match obj with
  | OClass c => existsb (Nat.eqb basemodel_id) (cls_mro c) && negb (Nat.eqb (cls_id c) basemodel_id)
  | _ => false
  end.

Definition class_info (c : PyClass) : PydanticClassInfo :=
  {| pci_cls := c;
     pci_doc := match cls_getdoc c with Some d => d | None => "" end;
     pci_fields := match cls_model_fields c with Some f => f | None => [] end |}.

Definition extract_member (obj : PyObj) : option PydanticClassInfo :=
  match obj with
  | OClass c => if is_pydantic_class obj then Some (class_info c) else None
  | _ => None
  end.

(** [_extract_pydantic_classes(module)]: every member of the module
    ([inspect.getmembers], i.e. every name of its namespace) that is a
    pydantic class, keyed by the member name. *)
Definition _extract_pydantic_classes (module : PyModule) : gmap string PydanticClassInfo :=
  omap extract_member (mod_ns module).

Record PydanticModuleInfo := {
  mi_module : PyModule;
  mi_classes : gmap string PydanticClassInfo
}.

Definition has_classes (mi : PydanticModuleInfo) : bool :=
  negb (Nat.eqb (size (mi_classes mi)) 0).

Definition load (exec_module : string -> gmap string PyObj * option py_exc)
  (exec_effects_of : string -> exec_effects) (compile_code : string -> option string)
  (pyc_tag : option string) (python_code : string) (code_id : nat) : PyM PydanticModuleInfo :=
  module ← _load_as_module exec_module exec_effects_of compile_code pyc_tag python_code code_id;
  mret {| mi_module := module; mi_classes := _extract_pydantic_classes module |}.

(* ------------------------------------------------------------------ *)
(** ** [McpClientManager] (templateer.py) *)

(** [mcp.types.CallToolResult] *)
Record CallToolResult := { ctr_content : list pyval; ctr_isError : bool }.

(** A live [ClientSession]: the outcomes of its requests. *)
Record ClientSession := {
  sess_call_tool : string -> list (string * pyval) -> outcome CallToolResult;
  sess_read_resource : string -> outcome pyval;
  sess_list_tools : outcome (list string);
  sess_list_resources : outcome (list string)
}.

Record McpClientManager := {
  mgr_config : TemplateConfig;
  sessions : list (string * ClientSession);
  server_tools : list (string * list string);
  server_resources : list (string * list string)
}.

Definition new_manager (cfg : TemplateConfig) : McpClientManager :=
  {| mgr_config := cfg; sessions := []; server_tools := []; server_resources := [] |}.

(** What [call_tool] / [read_resource] return: the session's result
    object, or one of the placeholder dicts. *)
Inductive tool_return :=
| RetResult (r : CallToolResult)
| RetValue (v : pyval).

(** [{key: [{"type": "text", "text": msg}]}] *)
Definition placeholder (key msg : string) : pyval :=
  PDict [(key, PList [PDict [("type", PStr "text"); ("text", PStr msg)]])].

Definition call_tool (mgr : McpClientManager) (server_name tool_name : string)
  (arguments : list (string * pyval)) : PyM tool_return :=
  match dict_get server_name (sessions mgr) with
  | None =>
      print ("Warning: MCP server '" ++ server_name ++
             "' is not connected, returning placeholder response") ;;
      mret (RetValue (placeholder "content"
        ("[Tool execution failed: MCP server '" ++ server_name ++ "' is not connected]")))
  | Some session =>
      try_except
        (lift (sess_call_tool session tool_name arguments) ≫= fun r => mret (RetResult r))
        is_Exception
        (fun e =>
           print ("Error calling tool " ++ tool_name ++ " on MCP server " ++ server_name ++
                  ": " ++ exc_msg e) ;;
           mret (RetValue (placeholder "content" ("[Tool execution error: " ++ exc_msg e ++ "]"))))
  end.

Definition read_resource (mgr : McpClientManager) (server_name resource_uri : string)
  : PyM tool_return :=
  match dict_get server_name (sessions mgr) with
  | None =>
      print ("Warning: MCP server '" ++ server_name ++
             "' is not connected, returning placeholder response") ;;
      mret (RetValue (placeholder "contents"
        ("[Resource read failed: MCP server '" ++ server_name ++ "' is not connected]")))
  | Some session =>
      try_except
        (lift (sess_read_resource session resource_uri) ≫= fun r => mret (RetValue r))
        is_Exception
        (fun e =>
           print ("Error reading resource " ++ resource_uri ++ " from MCP server " ++
                  server_name ++ ": " ++ exc_msg e) ;;
           mret (RetValue (placeholder "contents" ("[Resource read error: " ++ exc_msg e ++ "]"))))
  end.

Section Initialize.

(** Launching a server and the [initialize] handshake
    ([stdio_client] + [ClientSession] + [session.initialize()]). *)
Variable connect : string -> McpServerConfig -> outcome ClientSession.

(** The body of the [try] for one server; the manager it has built so far
    is kept when a later step raises (the dicts are updated in place). *)
Definition init_server (mgr : McpClientManager) (name : string) (sc : McpServerConfig)
  : McpClientManager * option py_exc :=
  match connect name sc with
  | Raises e => (mgr, Some e)
  | Returns s =>
      let m1 := {| mgr_config := mgr_config mgr; sessions := dict_set name s (sessions mgr);
                   server_tools := server_tools mgr; server_resources := server_resources mgr |} in
      match sess_list_tools s with
      | Raises e => (m1, Some e)
      | Returns tools =>
          let m2 := {| mgr_config := mgr_config m1; sessions := sessions m1;
                       server_tools := dict_set name tools (server_tools m1);
                       server_resources := server_resources m1 |} in
          match sess_list_resources s with
          | Raises e => (m2, Some e)
          | Returns res =>
              ({| mgr_config := mgr_config m2; sessions := sessions m2;
                  server_tools := server_tools m2;
                  server_resources := dict_set name res (server_resources m2) |}, None)
          end
      end
  end.

Fixpoint init_servers (mgr : McpClientManager) (servers : list (string * McpServerConfig))
  : PyM McpClientManager :=
  match servers with
  | [] => mret mgr
  | (name, sc) :: rest =>
      match init_server mgr name sc with
      | (m, None) => print ("Connected to MCP server: " ++ name) ;; init_servers m rest
      | (m, Some e) =>
          if is_Exception e
          then print ("Error connecting to MCP server " ++ name ++ ": " ++ exc_msg e) ;;
               init_servers m rest
          else raise e
      end
  end.

Definition initialize (mgr : McpClientManager) : PyM McpClientManager :=
  init_servers mgr (mcp_servers (mgr_config mgr)).

End Initialize.

(** [close()]: [exit_stack.aclose()]. *)
Definition close (mgr : McpClientManager) : PyM unit := record_event EvMcpClose.

(* ------------------------------------------------------------------ *)
(** ** [TemplateRenderer] and [TemplateProcessor.async_process] *)

(** The values a template sees. *)
Inductive ctx_value :=
| CModule (m : PyModule)
| CConfig (c : TemplateConfig)
| CDocs (d : gmap string string)
| CFields (f : gmap string (list (string * (string * bool))))
| CSchemaJsonFilter
| CClass (c : PyClass)
| CStdModule (name : string)
| CCatalog (c : list (string * list string))
| CNotConnectedCallTool        (* the lambda returning "MCP server '...' not connected" *)
| CNotConnectedReadResource
| CSafeCallTool (mgr : McpClientManager)
| CSafeReadResource (mgr : McpClientManager).

(** [_build_context] (the class entries follow the map's order; their keys
    are distinct, so the resulting mapping is the same as in the source). *)
Definition _build_context (tf : TemplateFile) (mi : PydanticModuleInfo)
  : list (string * ctx_value) :=
  let base :=
    [("module", CModule (mi_module mi)); ("config", CConfig (config tf));
     ("pydantic_docs", CDocs (pci_doc <$> mi_classes mi));
     ("pydantic_fields", CFields (pci_fields <$> mi_classes mi));
     ("get_schema_json", CSchemaJsonFilter)] in
  let with_classes :=
    fold_left (fun ctx '(name, info) => dict_set name (CClass (pci_cls info)) ctx)
      (map_to_list (mi_classes mi)) base in
  fold_left (fun ctx n => dict_set n (CStdModule n) ctx)
    ["datetime"; "typing"; "pydantic"; "json"] with_classes.

Definition context_extension (mgr : option McpClientManager) : list (string * ctx_value) :=
  match mgr with
  | None =>
      [("mcp_tools", CCatalog []); ("mcp_resources", CCatalog []);
       ("mcp_call_tool", CNotConnectedCallTool);
       ("mcp_read_resource", CNotConnectedReadResource)]
  | Some m =>
      [("mcp_tools", CCatalog (server_tools m)); ("mcp_resources", CCatalog (server_resources m));
       ("mcp_call_tool", CSafeCallTool m); ("mcp_read_resource", CSafeReadResource m)]
  end.

(** [config.output_file or template_path.stem + ".md"] *)
Definition output_filename (cfg : TemplateConfig) (template_path : string) : string :=
  match output_file cfg with
  | Some s => if String.eqb s "" then path_stem template_path ++ ".md" else s
  | None => path_stem template_path ++ ".md"
  end.

(** The environment of one run: the files read, the interpreter running
    the code region (its namespace and outcome, its imports and writes,
    its compilation and the bytecode cache tag), [id(python_code)], the
    MCP servers, Jinja ([from_string] + [render] on the context), and
    whether a text encodes in the locale's encoding ([write_text] is
    called without [encoding=]). *)
Record pipeline_env := {
  env_fs : string -> fs_entry;
  env_exec : string -> gmap string PyObj * option py_exc;
  env_exec_effects : string -> exec_effects;
  env_compile : string -> option string;
  env_pyc_tag : option string;
  env_encodable : string -> bool;
  env_code_id : nat;
  env_connect : string -> McpServerConfig -> outcome ClientSession;
  env_render : string -> list (string * ctx_value) -> outcome string
}.

(** [output_dir.mkdir(parents=True, exist_ok=True)] *)
Definition mkdir (fs : string -> fs_entry) (d : string) : PyM unit :=
  match fs d with
  | FFile _ => raise_ FileExistsError ("File exists: " ++ d)
  | _ => mret tt
  end.

(** [output_path.write_text(text)] once [output_dir] exists: [open(p, "w")]
    needs the parent directory of [p]; it creates or truncates [p], then
    the text is encoded, and a text that does not encode leaves [p] empty. *)
Definition write_output (fs : string -> fs_entry) (encodable : string -> bool)
  (output_dir p text : string) : PyM unit :=
  let write :=
    if encodable text then write_text p text ;; record_event (EvWrite p)
    else write_text p "" ;;
         raise_ UnicodeEncodeError ("can't encode the text written to " ++ p) in
  match fs p with
  | FDir => raise_ IsADirectoryError ("Is a directory: " ++ p)
  | FNoAccess => raise_ PermissionError ("Permission denied: " ++ p)
  | FFile _ => write
  | FMissing =>
      let d := path_parent p in
      if String.eqb d output_dir then write
      else match fs d with
           | FDir => write
           | FMissing => raise_ FileNotFoundError ("No such file or directory: " ++ p)
           | FFile _ => raise_ NotADirectoryError ("Not a directory: " ++ p)
           | FNoAccess => raise_ PermissionError ("Permission denied: " ++ p)
           end
  end.

Definition render_and_write (e : pipeline_env) (template_path output_dir : string)
  (tf : TemplateFile) (mgr : option McpClientManager) : PyM string :=
  module_info ← load (env_exec e) (env_exec_effects e) (env_compile e) (env_pyc_tag e)
                   (python_code tf) (env_code_id e);
  if negb (has_classes module_info)
  then raise_ ValueError "No Pydantic classes found in the template file"
  else
    print "Found Pydantic classes" ;;
    record_event EvRender ;;
    rendered_content ←
      lift (env_render e (template_content tf)
              (fold_left (fun ctx '(k, v) => dict_set k v ctx) (context_extension mgr)
                 (_build_context tf module_info)));
    let filename := output_filename (config tf) template_path in
    mkdir (env_fs e) output_dir ;;
    let output_path := path_join output_dir filename in
    write_output (env_fs e) (env_encodable e) output_dir output_path rendered_content ;;
    print ("Template rendered successfully to " ++ output_path) ;;
    mret output_path.

Definition async_process (e : pipeline_env) (template_path output_dir : string) : PyM string :=
  template_file ← from_file (env_fs e) template_path;
  mgr ← (if Nat.eqb (length (mcp_servers (config template_file))) 0 then mret None
         else record_event EvMcpInit ;;
              try_except
                (m ← initialize (env_connect e) (new_manager (config template_file));
                 mret (Some m))
                is_Exception
                (* [self.mcp_manager] keeps the manager [initialize] was
                   filling; [initialize] catches every [Exception] of its
                   servers, so no [Exception] reaches this handler *)
                (fun ex =>
                   print ("Warning: Failed to initialize MCP client manager: " ++ exc_msg ex) ;;
                   print "Template will be rendered without MCP integration" ;;
                   mret (Some (new_manager (config template_file)))));
  try_finally (render_and_write e template_path output_dir template_file mgr)
    (match mgr with Some m => close m | None => mret tt end).

(** The context [TemplateRenderer.render] hands to Jinja:
    [_build_context], then [context.update(context_extension)] (the
    extension [async_process] passes is never empty). [render_and_write]
    passes this context. *)
Definition render_context (tf : TemplateFile) (mi : PydanticModuleInfo)
  (mgr : option McpClientManager) : list (string * ctx_value) :=
  fold_left (fun ctx '(k, v) => dict_set k v ctx) (context_extension mgr)
    (_build_context tf mi).

(** [main()] once [parse_args()] has read [--template] and [--output]:
    [TemplateProcessor(...).process()], i.e. [asyncio.run(async_process())];
    an [Exception] is printed as "Error: <e>" and gives exit code 1 (the
    traceback goes to standard error, which is not modelled). *)
Definition main (e : pipeline_env) (template output : string) : PyM nat :=
  try_except (async_process e template output ;; mret 0%nat) is_Exception
    (fun ex => print ("Error: " ++ exc_msg ex) ;; mret 1%nat).

Definition empty_world : world :=
  {| w_stdout := []; w_sys_modules := ∅; w_files := ∅; w_trace := [] |}.

(* ------------------------------------------------------------------ *)
(** ** Fixtures *)

Definition person_class : PyClass :=
  {| cls_id := 5; cls_name := "Person"; cls_mro := [5; 0; 1]%nat;
     cls_getdoc := Some "A person.";
     cls_model_fields := Some [("name", ("str", true))] |}.

(** A document whose configuration sets [output-file] to the empty string
    and has a malformed inline [mcp-servers] value. *)
Definition person_doc : string :=
  "# /// script" ++ nl ++ "# dependencies = []" ++ nl ++ "# ///" ++ nl ++
  "class Person(BaseModel):" ++ nl ++ "    name: str" ++ nl ++
  "# /// template" ++ nl ++ bq "# output-file = ``" ++ nl ++
  "# mcp-servers = {bad" ++ nl ++ "# ///" ++ nl ++
  bq "```" ++ nl ++ "Hello {{ pydantic_docs['Person'] }}" ++ nl ++ bq "```".

(** A code region whose imports ([pydantic], [typing], ...) are already
    loaded by the host process: it loads no module and writes no file. *)
Definition host_imports_only : exec_effects := {| ex_imports := []; ex_writes := [] |}.

Definition person_fs (p : string) : fs_entry :=
  if String.eqb p "t/person.py" then FFile person_doc
  else if String.eqb p "out" then FDir else FMissing.

Definition person_ns : gmap string PyObj :=
  {[ "BaseModel" := OClass BaseModel; "Person" := OClass person_class ]}.

Definition person_env : pipeline_env :=
  {| env_fs := person_fs;
     env_exec := fun _ => (person_ns, None);
     env_exec_effects := fun _ => host_imports_only;
     env_compile := fun _ => Some "bytecode";
     env_pyc_tag := Some "cpython-312";
     env_encodable := fun _ => true;
     env_code_id := 7;
     env_connect := fun _ _ => Raises {| exc_type := RuntimeError; exc_msg := "no server" |};
     env_render := fun t _ => Returns t |}.


(* ------------------------------------------------------------------ *)
(** ** Fixtures of the configuration-block search *)

(** A document whose "template" marker is only formed once the dependency
    block, which sits inside the word, has been removed. *)
Definition split_marker_doc : string :=
  "# /// tem# /// script" ++ nl ++ "x# ///plate" ++ nl ++ "y# ///".

Definition split_marker_fs (p : string) : fs_entry :=
  if String.eqb p "d.py" then FFile split_marker_doc else FMissing.

(** A document whose template body ends with a quoted word and has no
    triple-quote wrapping. *)
Definition quoted_body_doc : string :=
  "# /// template" ++ nl ++ "# ///" ++ nl ++ bq "Say `hi`".

Definition quoted_body_fs (p : string) : fs_entry :=
  if String.eqb p "q.py" then FFile quoted_body_doc else FMissing.

(** The fallback of the list syntax as the specification words it: split
    the interior on commas, strip white space and then the surrounding
    quotes of each item, and drop the items that are then empty. *)
Definition spec_fallback_items (value : string) : list string :=
  filter (fun item => negb (String.eqb item ""))
    (map (fun item => py_strip_chars (dq ++ "'") (py_strip item))
       (py_split "," (py_slice_inner value))).

(* ------------------------------------------------------------------ *)
(** ** Fixtures of the loader, the MCP manager and the pipeline *)

(** The MCP servers of an environment fail only with [Exception]s: when
    connecting, and when listing the tools and resources of a session. *)
Definition connect_fails_softly (connect : string -> McpServerConfig -> outcome ClientSession) : Prop :=
  forall name sc,
  match connect name sc with
  | Raises ex => is_Exception ex = true
  | Returns s =>
      (forall ex, sess_list_tools s = Raises ex -> is_Exception ex = true)
      /\ (forall ex, sess_list_resources s = Raises ex -> is_Exception ex = true)
  end.

(** A namespace that binds one schema class under two names. *)
Definition alias_module : PyModule :=
  {| mod_name := "pydantic_module_7";
     mod_ns := {[ "BaseModel" := OClass BaseModel; "Person" := OClass person_class;
                  "Alias" := OClass person_class; "greeting" := OValue (PStr "hi") ]} |}.

(** A namespace with no schema class: only the imported base and a str. *)
Definition no_class_ns : gmap string PyObj :=
  {[ "BaseModel" := OClass BaseModel; "greeting" := OValue (PStr "hi") ]}.

(** A document that configures one MCP server inline. *)
Definition server_doc : string :=
  "from pydantic import BaseModel" ++ nl ++
  "# /// template" ++ nl ++ bq "# mcp-servers = {`s`: {`command`: `srv`}}" ++ nl ++
  "# ///" ++ nl ++ "Hello".

Definition server_fs (p : string) : fs_entry :=
  if String.eqb p "t/server.py" then FFile server_doc
  else if String.eqb p "out" then FDir else FMissing.

(** Its code region defines no schema class; its server cannot be started. *)
Definition no_class_env : pipeline_env :=
  {| env_fs := server_fs;
     env_exec := fun _ => (no_class_ns, None);
     env_exec_effects := fun _ => host_imports_only;
     env_compile := fun _ => Some "bytecode";
     env_pyc_tag := Some "cpython-312";
     env_encodable := fun _ => true;
     env_code_id := 7;
     env_connect := fun _ _ => Raises {| exc_type := RuntimeError; exc_msg := "no server" |};
     env_render := fun t _ => Returns t |}.

Definition default_config : TemplateConfig :=
  {| output_file := None; imports := []; reference_file := None; mcp_servers := [];
     mcp_tools := []; mcp_resources := []; extra_params := [] |}.

(** A live session whose tool calls fail. *)
Definition failing_session : ClientSession :=
  {| sess_call_tool := fun _ _ => Raises {| exc_type := RuntimeError; exc_msg := "tool crashed" |};
     sess_read_resource := fun _ => Raises {| exc_type := RuntimeError; exc_msg := "read failed" |};
     sess_list_tools := Returns ["t"];
     sess_list_resources := Returns [] |}.

Definition demo_mgr : McpClientManager :=
  {| mgr_config := default_config; sessions := [("up", failing_session)];
     server_tools := [("up", ["t"])]; server_resources := [("up", [])] |}.


(* ------------------------------------------------------------------ *)
(** ** Fixtures of the further properties *)

(** A live session whose reads succeed and whose tool listing fails. *)
Definition reading_session : ClientSession :=
  {| sess_call_tool := fun _ _ => Returns {| ctr_content := [PStr "ok"]; ctr_isError := false |};
     sess_read_resource := fun _ => Returns (PStr "data");
     sess_list_tools := Raises {| exc_type := RuntimeError; exc_msg := "listing failed" |};
     sess_list_resources := Returns [] |}.

Definition reading_mgr : McpClientManager :=
  {| mgr_config := default_config;
     sessions := [("up", failing_session); ("ok", reading_session)];
     server_tools := []; server_resources := [] |}.

(** Only the server named "ok" starts. *)
Definition ok_connect (name : string) (sc : McpServerConfig) : outcome ClientSession :=
  if String.eqb name "ok" then Returns reading_session
  else Raises {| exc_type := RuntimeError; exc_msg := "no server" |}.

Definition srv_config : McpServerConfig := {| command := "srv"; args := []; env := None |}.

(** The person document, rendered by a Jinja that is cancelled. *)
Definition cancelled_env : pipeline_env :=
  {| env_fs := person_fs;
     env_exec := fun _ => (person_ns, None);
     env_exec_effects := fun _ => host_imports_only;
     env_compile := fun _ => Some "bytecode";
     env_pyc_tag := Some "cpython-312";
     env_encodable := fun _ => true;
     env_code_id := 7;
     env_connect := fun _ _ => Raises {| exc_type := RuntimeError; exc_msg := "no server" |};
     env_render := fun _ _ => Raises {| exc_type := CancelledError; exc_msg := "" |} |}.

(** The person document's parts, as [from_file] gives them. *)
Definition person_tf : TemplateFile :=
  {| tf_path := "t/person.py";
     python_code := "from pydantic import BaseModel" ++ nl ++
                    "class Person(BaseModel):" ++ nl ++ "    name: str";
     template_content := "Hello {{ pydantic_docs['Person'] }}";
     config := default_config |}.




(** A configuration with one key the code does not know. *)
Definition extra_config : TemplateConfig :=
  {| output_file := Some "o.md"; imports := []; reference_file := None; mcp_servers := [];
     mcp_tools := []; mcp_resources := []; extra_params := [("author", PStr "me")] |}.

(* ------------------------------------------------------------------ *)
(** ** Sanity checks of the embedding *)

Example json_loads_list :
  json_loads (bq "[`a.py`, `b.py`]") = Some (PList [PStr "a.py"; PStr "b.py"]).
Proof. vm_compute. reflexivity. Qed.

Example json_loads_obj :
  json_loads (bq "{`s`: {`command`: `x`, `args`: [1, -2.5e3, true, null]}, `s`: []}")
  = Some (PDict [("s", PList [])]).
Proof. vm_compute. reflexivity. Qed.

Example json_loads_bad : json_loads "[a.py, b.py]" = None.
Proof. vm_compute. reflexivity. Qed.

Example json_loads_trailing_comma : json_loads "[1,]" = None.
Proof. vm_compute. reflexivity. Qed.

Example parse_imports_example :
  _parse_template_config (bq "# output-file = `x.md`" ++ nl ++ bq "# imports = [`a.py`, `b.py`]")
  = [("output-file", PStr "x.md"); ("imports", PList [PStr "a.py"; PStr "b.py"])].
Proof. vm_compute. reflexivity. Qed.

Example parse_unbalanced_quotes :
  _parse_template_config (bq "imports = [`a.py, 'b.py']")
  = [("imports", PList [PStr "a.py"; PStr "b.py"])].
Proof. vm_compute. reflexivity. Qed.

Example stem_example : path_stem "templates/person_template.py" = "person_template".
Proof. reflexivity. Qed.

Example person_pipeline_runs :
  fst (async_process person_env "t/person.py" "out" empty_world) = Returns "out/person.md".
Proof. vm_compute. reflexivity. Qed.

(* ------------------------------------------------------------------ *)
(** ** Helper lemmas *)

Lemma dict_get_set_eq {V} (k : string) (v : V) (d : list (string * V)) :
  dict_get k (dict_set k v d) = Some v.
Proof.
  induction d as [|[k' v'] d IH]; simpl.
  - rewrite String.eqb_refl. reflexivity.
  - destruct (String.eqb k k') eqn:E; simpl.
    + rewrite String.eqb_refl. reflexivity.
    + rewrite E. exact IH.
Qed.

Lemma split_once_some (c : ascii) (s a b : string) :
  py_split_once c s = Some (a, b) -> str_contains_char c s = true.
Proof.
  revert a b. induction s as [|d r IH]; intros a b H; simpl in *.
  - discriminate.
  - destruct (Ascii.eqb d c) eqn:E.
    + apply Ascii.eqb_eq in E. subst. rewrite Ascii.eqb_refl. reflexivity.
    + destruct (py_split_once c r) as [[x y]|] eqn:E2; [|discriminate].
      rewrite (IH x y eq_refl). apply orb_true_r.
Qed.

Lemma split_once_nonempty (c : ascii) (s a b : string) :
  py_split_once c s = Some (a, b) -> String.eqb s "" = false.
Proof. destruct s; simpl; [discriminate | reflexivity]. Qed.

Lemma parse_config_line_no_eq (config : list (string * pyval)) (raw_line : string) :
  str_contains_char "=" (py_strip (py_strip_chars "#" (py_strip raw_line))) = false ->
  parse_config_line config raw_line = config.
Proof.
  intros H. unfold parse_config_line.
  destruct (String.eqb _ ""); [reflexivity|]. rewrite H. reflexivity.
Qed.

(** The element loop of a JSON array only ever returns a list. *)
Lemma array_elems_list (scan : string -> option (pyval * string)) :
  forall n s0 acc x rest,
  array_elems scan n s0 acc = Some (x, rest) -> exists l, x = PList l.
Proof.
  induction n as [|n IH]; intros s0 acc x rest H; simpl in H; [discriminate|].
  destruct (scan s0) as [[v s1]|]; [|discriminate].
  destruct (skip_ws s1) as [|c s2]; [discriminate|].
  destruct (Ascii.eqb c "]").
  - injection H as <- _. eexists. reflexivity.
  - destruct (Ascii.eqb c ","); [|discriminate]. eapply IH. exact H.
Qed.

(** [json.loads] of a text starting with a bracket is a list or fails. *)
Lemma json_loads_bracket_list (value : string) (x : pyval) :
  py_startswith "[" value = true -> json_loads value = Some x -> exists l, x = PList l.
Proof.
  intros Hpre Hj.
  destruct value as [|c r]; [discriminate|].
  unfold py_startswith in Hpre. cbn [String.prefix] in Hpre.
  destruct (ascii_dec "[" c) as [<-|]; [|discriminate].
  unfold json_loads in Hj. cbn [String.prefix utf8_bom] in Hj.
  destruct (ascii_dec _ "[") as [E|_]; [discriminate|].
  replace (skip_ws (String "[" r)) with (String "[" r) in Hj by reflexivity.
  cbn [scan_once String.length] in Hj.
  destruct (skip_ws r) as [|c' r'] eqn:Ew; [discriminate|].
  destruct (Ascii.eqb c' "]").
  - destruct (skip_ws r'); [|discriminate]. injection Hj as <-. eexists. reflexivity.
  - destruct (array_elems _ _ _ _) as [[v rest]|] eqn:Ea; [|discriminate].
    destruct (skip_ws rest); [|discriminate]. injection Hj as <-.
    eapply array_elems_list. exact Ea.
Qed.

Lemma extract_member_Some (o : PyObj) (info : PydanticClassInfo) :
  extract_member o = Some info <->
  exists c, o = OClass c /\ is_pydantic_class (OClass c) = true /\ info = class_info c.
Proof.
  split.
  - intros H. destruct o as [c| | |]; try discriminate. exists c.
    unfold extract_member in H.
    destruct (is_pydantic_class (OClass c)); [|discriminate].
    injection H as <-. auto.
  - intros (c & -> & Hp & ->). unfold extract_member. rewrite Hp. reflexivity.
Qed.

Lemma extract_lookup (module : PyModule) name info :
  _extract_pydantic_classes module !! name = Some info <->
  exists c, mod_ns module !! name = Some (OClass c) /\ is_pydantic_class (OClass c) = true /\ info = class_info c.
Proof.
  unfold _extract_pydantic_classes. rewrite lookup_omap.
  destruct (mod_ns module !! name) as [o|]; simpl.
  - rewrite extract_member_Some. split.
    + intros (c & -> & Hp & ->). eauto.
    + intros (c & Hc & Hp & ->). injection Hc as ->. eauto.
  - split; [discriminate|]. intros (c & H & _). discriminate.
Qed.

Lemma extract_size (module : PyModule) :
  size (_extract_pydantic_classes module)
  = size (filter (fun kv : string * PyObj => is_pydantic_class kv.2 = true) (mod_ns module)).
Proof.
  rewrite <- !size_dom. f_equal. apply set_eq. intros k.
  rewrite !elem_of_dom. split.
  - intros [info Hi]. apply extract_lookup in Hi as (c & Hc & Hp & _).
    exists (OClass c). apply map_lookup_filter_Some. split; assumption.
  - intros [o Ho]. apply map_lookup_filter_Some in Ho as [Ho Hp].
    destruct o; try discriminate. exists (class_info c). apply extract_lookup. eauto.
Qed.


Lemma dict_get_del_ne {V} (k k' : string) (d : list (string * V)) :
  k <> k' -> dict_get k (dict_del k' d) = dict_get k d.
Proof.
  intros Hne. induction d as [|[k0 v0] d IH]; simpl; [reflexivity|].
  destruct (String.eqb k' k0) eqn:E; simpl.
  - apply String.eqb_eq in E. subst k0.
    apply String.eqb_neq in Hne. rewrite Hne. reflexivity.
  - destruct (String.eqb k k0); [reflexivity | exact IH].
Qed.



Lemma dict_get_del_nodup {V} (k : string) (d : list (string * V)) :
  NoDup (map fst d) -> dict_get k (dict_del k d) = None.
Proof.
  induction d as [|[k0 v0] d IH]; simpl; intros Hnd; [reflexivity|].
  inversion Hnd as [|? ? Hnin Hnd']; subst.
  destruct (String.eqb k k0) eqn:E; simpl.
  - apply String.eqb_eq in E. subst k0.
    clear IH Hnd Hnd'. induction d as [|[k1 v1] d IH2]; simpl; [reflexivity|].
    simpl in Hnin. destruct (String.eqb k k1) eqn:E1.
    + apply String.eqb_eq in E1. subst. exfalso. apply Hnin. apply list_elem_of_here.
    + apply IH2. intros Hin. apply Hnin. apply list_elem_of_further. exact Hin.
  - rewrite E. apply IH. exact Hnd'.
Qed.



Lemma bind_returns {A B} (m : PyM A) (f : A -> PyM B) (w : world) (a : A) (w1 : world) :
  m w = (Returns a, w1) -> (m ≫= f) w = f a w1.
Proof. intros H. unfold mbind, PyM_bind, py_bind. rewrite H. reflexivity. Qed.


Lemma try_except_returns {A} (m : PyM A) (catches : py_exc -> bool) (h : py_exc -> PyM A)
  (w w' : world) (a : A) :
  m w = (Returns a, w') -> try_except m catches h w = (Returns a, w').
Proof. intros H. unfold try_except. rewrite H. reflexivity. Qed.

Lemma init_server_soft connect m name sc m' ex :
  connect_fails_softly connect ->
  init_server connect m name sc = (m', Some ex) -> is_Exception ex = true.
Proof.
  intros Hc. specialize (Hc name sc). unfold init_server.
  destruct (connect name sc) as [s|e]; [|intros H; injection H as _ <-; exact Hc].
  destruct Hc as [Ht Hr].
  destruct (sess_list_tools s) as [tools|e] eqn:Et; [|intros H; injection H as _ <-; apply Ht; reflexivity].
  destruct (sess_list_resources s) as [res|e] eqn:Er; [discriminate|].
  intros H; injection H as _ <-; apply Hr; reflexivity.
Qed.

Lemma init_servers_soft connect :
  connect_fails_softly connect ->
  forall servers m w, exists m',
    fst (init_servers connect m servers w) = Returns m'
    /\ w_trace (snd (init_servers connect m servers w)) = w_trace w.
Proof.
  intros Hc. induction servers as [|[name sc] servers IH]; intros m w; simpl.
  - eauto.
  - destruct (init_server connect m name sc) as [m1 [ex|]] eqn:Ei.
    + rewrite (init_server_soft _ _ _ _ _ _ Hc Ei).
      unfold mbind, PyM_bind, py_bind, print, modify_world.
      cbv beta iota.
      match goal with |- context [init_servers connect m1 servers ?W] =>
        destruct (IH m1 W) as (m' & H1 & H2) end.
      exists m'. split; [exact H1 | rewrite H2; reflexivity].
    + unfold mbind, PyM_bind, py_bind, print, modify_world.
      cbv beta iota.
      match goal with |- context [init_servers connect m1 servers ?W] =>
        destruct (IH m1 W) as (m' & H1 & H2) end.
      exists m'. split; [exact H1 | rewrite H2; reflexivity].
Qed.

Lemma extract_none (module : PyModule) :
  map_Forall (fun _ o => is_pydantic_class o = false) (mod_ns module) ->
  _extract_pydantic_classes module = ∅.
Proof.
  intros Hn. apply map_eq. intros k. rewrite lookup_empty.
  destruct (_extract_pydantic_classes module !! k) as [info|] eqn:E; [|reflexivity].
  apply extract_lookup in E as (c & Hc & Hp & _).
  rewrite (Hn k _ Hc) in Hp. discriminate.
Qed.

Lemma render_no_classes (e : pipeline_env) (tp od : string) (tf : TemplateFile)
  (mgr : option McpClientManager) (ns : gmap string PyObj) (w : world) :
  env_exec e (python_code tf) = (ns, None) ->
  map_Forall (fun _ o => is_pydantic_class o = false) ns ->
  fst (render_and_write e tp od tf mgr w)
  = Raises {| exc_type := ValueError; exc_msg := "No Pydantic classes found in the template file" |}
  /\ w_trace (snd (render_and_write e tp od tf mgr w)) = w_trace w.
Proof.
  intros Hx Hn. unfold render_and_write, load, _load_as_module.
  unfold mbind, PyM_bind, py_bind, try_finally. rewrite Hx. simpl.
  rewrite (extract_none {| mod_name := _; mod_ns := ns |} Hn). simpl. split; reflexivity.
Qed.

Lemma render_and_write_path (e : pipeline_env) (tp od : string) (tf : TemplateFile)
  (mgr : option McpClientManager) (w : world) (p : string) :
  fst (render_and_write e tp od tf mgr w) = Returns p ->
  p = path_join od (output_filename (config tf) tp).
Proof.
  unfold render_and_write. unfold mbind, PyM_bind, py_bind.
  destruct (load (env_exec e) (env_exec_effects e) (env_compile e) (env_pyc_tag e)
             (python_code tf) (env_code_id e) w) as [[mi|ex] w1]; [|discriminate].
  destruct (negb (has_classes mi)); [discriminate|].
  unfold lift.
  destruct (env_render e _ _) as [r|ex]; [|discriminate].
  unfold mkdir, write_output.
  destruct (env_fs e od); simpl; try discriminate;
    destruct (env_fs e (path_join od _)); simpl; try discriminate;
    repeat (match goal with
            | |- context [if ?b then _ else _] => destruct b
            | |- context [match env_fs e ?d with _ => _ end] => destruct (env_fs e d)
            end; simpl; try discriminate);
    intros H; injection H as <-; reflexivity.
Qed.


(* ------------------------------------------------------------------ *)
(** * Claims *)

(** ** Configuration lines without [=] *)

(** C10: a configuration line that, once stripped of white space and of
    [#], is non-empty but has no [=] leaves the parsed mapping as it is:
    removing it from any list of lines gives the same mapping, and the
    loop step for it is the identity on every mapping. *)
Theorem no_eq_line_ignored (before after : list string) (raw_line : string)
  (Hne : String.eqb (py_strip (py_strip_chars "#" (py_strip raw_line))) "" = false)
  (Hno : str_contains_char "=" (py_strip (py_strip_chars "#" (py_strip raw_line))) = false) :
  parse_config_lines (before ++ raw_line :: after) = parse_config_lines (before ++ after)
  /\ forall config, parse_config_line config raw_line = config.
Proof.
  assert (Hid : forall config, parse_config_line config raw_line = config)
    by (intros config; apply parse_config_line_no_eq; exact Hno).
  split; [|exact Hid].
  unfold parse_config_lines. rewrite !fold_left_app. simpl. rewrite Hid. reflexivity.
Qed.

Lemma no_eq_line_ignored_witness :
  String.eqb (py_strip (py_strip_chars "#" (py_strip "  # just a note "))) "" = false
  /\ str_contains_char "=" (py_strip (py_strip_chars "#" (py_strip "  # just a note "))) = false
  /\ (parse_config_lines (["# a = 1"] ++ "  # just a note " :: ["# b = [x]"])
      = parse_config_lines (["# a = 1"] ++ ["# b = [x]"])
      /\ forall config, parse_config_line config "  # just a note " = config).
Proof.
  split; [vm_compute; reflexivity|].
  split; [vm_compute; reflexivity|].
  apply no_eq_line_ignored; vm_compute; reflexivity.
Defined.

(** ** Bracketed values *)

(** C7 (counterexample): the value [[a, '', b]] is not JSON; the code keeps
    the item [''] (its white-space-stripped form is not empty) and stores
    the empty string for it, where dropping items empty after full
    stripping would give two items. *)
Lemma bracket_fallback_keeps_quote_only_item :
  json_loads "[a, '', b]" = None
  /\ dict_get "k" (parse_config_line [] "# k = [a, '', b]")
     = Some (PList [PStr "a"; PStr ""; PStr "b"])
  /\ spec_fallback_items "[a, '', b]" = ["a"; "b"].
Proof. vm_compute. repeat split. Qed.

(** C7: for a line [key = value] whose unquoted value starts with [[] and
    ends with []]: when [json.loads] accepts the value, the key is bound to
    exactly the decoded value, which is a list; otherwise the key is bound
    to the list of the comma-separated items of the interior whose
    white-space-stripped form is non-empty, each stripped of white space and
    then of surrounding quotes (an item made of quotes only gives the empty
    string). No exception is possible: the step is a total function. In
    particular [imports = ["a.py", "b.py"]] gives the two paths in order. *)
Theorem bracket_value_list (config : list (string * pyval)) (raw_line key rawv : string)
  (Hsplit : py_split_once "=" (py_strip (py_strip_chars "#" (py_strip raw_line)))
            = Some (key, rawv))
  (Hopen : py_startswith "[" (unquote (py_strip rawv)) = true)
  (Hclose : py_endswith "]" (unquote (py_strip rawv)) = true) :
  (forall x, json_loads (unquote (py_strip rawv)) = Some x ->
     dict_get (py_strip key) (parse_config_line config raw_line) = Some x
     /\ exists l, x = PList l)
  /\ (json_loads (unquote (py_strip rawv)) = None ->
     dict_get (py_strip key) (parse_config_line config raw_line)
     = Some (PList (map (fun item => PStr (py_strip_chars (dq ++ "'") (py_strip item)))
                     (filter (fun item => negb (String.eqb (py_strip item) ""))
                        (py_split "," (py_slice_inner (unquote (py_strip rawv))))))))
  /\ _parse_template_config (bq "imports = [`a.py`, `b.py`]")
     = [("imports", PList [PStr "a.py"; PStr "b.py"])].
Proof.
  assert (Hstep : dict_get (py_strip key) (parse_config_line config raw_line)
                  = Some (config_value rawv)).
  { unfold parse_config_line. cbv zeta.
    rewrite (split_once_nonempty _ _ _ _ Hsplit), (split_once_some _ _ _ _ Hsplit), Hsplit.
    apply dict_get_set_eq. }
  rewrite Hstep. unfold config_value. cbv zeta. rewrite Hopen, Hclose. simpl andb.
  split; [|split].
  - intros x Hx. rewrite Hx. split; [reflexivity|].
    eapply json_loads_bracket_list; eassumption.
  - intros Hx. rewrite Hx. unfold fallback_items. rewrite map_map. reflexivity.
  - vm_compute. reflexivity.
Qed.

Lemma bracket_value_list_witness :
  py_split_once "=" (py_strip (py_strip_chars "#" (py_strip "# imports = [a.py, 'b.py']")))
    = Some ("imports ", " [a.py, 'b.py']")
  /\ py_startswith "[" (unquote (py_strip " [a.py, 'b.py']")) = true
  /\ py_endswith "]" (unquote (py_strip " [a.py, 'b.py']")) = true
  /\ ((forall x, json_loads (unquote (py_strip " [a.py, 'b.py']")) = Some x ->
        dict_get (py_strip "imports ") (parse_config_line [] "# imports = [a.py, 'b.py']")
        = Some x /\ exists l, x = PList l)
     /\ (json_loads (unquote (py_strip " [a.py, 'b.py']")) = None ->
        dict_get (py_strip "imports ") (parse_config_line [] "# imports = [a.py, 'b.py']")
        = Some (PList (map (fun item => PStr (py_strip_chars (dq ++ "'") (py_strip item)))
                        (filter (fun item => negb (String.eqb (py_strip item) ""))
                           (py_split "," (py_slice_inner (unquote (py_strip " [a.py, 'b.py']"))))))))
     /\ _parse_template_config (bq "imports = [`a.py`, `b.py`]")
        = [("imports", PList [PStr "a.py"; PStr "b.py"])]).
Proof.
  split; [vm_compute; reflexivity|].
  split; [vm_compute; reflexivity|].
  split; [vm_compute; reflexivity|].
  apply bracket_value_list; vm_compute; reflexivity.
Defined.

(** ** The configuration-block search *)

(** C1 (counterexample): the configuration-block pattern does not match the
    document as written, yet parsing succeeds, with an empty configuration
    and an empty template: the pattern is searched in the text left after
    the dependency block is removed, where the marker has been joined. *)
Lemma split_marker_parses :
  re_search template_pattern split_marker_doc = None
  /\ match fst (from_file split_marker_fs "d.py" empty_world) with
     | Returns tf =>
         template_content tf = "" /\ python_code tf = ""
         /\ output_file (config tf) = None /\ mcp_servers (config tf) = []
         /\ extra_params (config tf) = []
     | Raises _ => False
     end.
Proof. vm_compute. repeat split. Qed.

(** C1: for an existing file whose content, after removal of the dependency
    block, has no match of the configuration-block pattern, parsing raises
    the missing-section [ValueError] naming the file, and changes nothing. *)
Theorem from_file_missing_section (fs : string -> fs_entry) (p content : string) (w : world)
  (Hfile : fs p = FFile content)
  (Hnone : re_search template_pattern (drop_uv_script content) = None) :
  from_file fs p w
  = (Raises {| exc_type := ValueError;
               exc_msg := "Could not find template section marker '# /// template' in " ++ p |},
     w).
Proof.
  unfold from_file, path_exists, read_file. rewrite Hfile. simpl negb.
  cbn [negb]. unfold mbind, PyM_bind, py_bind, lift. cbv beta iota. rewrite Hnone. reflexivity.
Qed.

Lemma from_file_missing_section_witness :
  (fun _ : string => FFile (bq "# /// script" ++ nl ++ "# ///" ++ nl ++ "x = 1")) "n.py"
    = FFile (bq "# /// script" ++ nl ++ "# ///" ++ nl ++ "x = 1")
  /\ re_search template_pattern
       (drop_uv_script (bq "# /// script" ++ nl ++ "# ///" ++ nl ++ "x = 1")) = None
  /\ from_file (fun _ => FFile (bq "# /// script" ++ nl ++ "# ///" ++ nl ++ "x = 1"))
       "n.py" empty_world
     = (Raises {| exc_type := ValueError;
                  exc_msg := "Could not find template section marker '# /// template' in "
                             ++ "n.py" |},
        empty_world).
Proof.
  split; [reflexivity|].
  split; [vm_compute; reflexivity|].
  apply (from_file_missing_section _ "n.py"
           (bq "# /// script" ++ nl ++ "# ///" ++ nl ++ "x = 1") empty_world);
    [reflexivity | vm_compute; reflexivity].
Defined.

(** ** The template region *)

(** C9: on a document with a configuration block and a template body that
    has no triple-quote wrapping but ends with a quoted word, the extracted
    template region loses the closing double quote of that word: the body
    is stripped of every leading and trailing double-quote character, not
    of one layer of triple quotes. *)
Theorem template_region_strips_quote_chars :
  match fst (from_file quoted_body_fs "q.py" empty_world) with
  | Returns tf => template_content tf = bq "Say `hi" /\ template_content tf <> bq "Say `hi`"
  | Raises _ => False
  end.
Proof. vm_compute. split; [reflexivity | discriminate]. Qed.

(** ** The module registry *)







(** ** [McpClientManager.call_tool] *)

(** C3: [call_tool] on a server with no session returns the "not
    connected" placeholder; on a session whose call raises an [Exception]
    it returns the placeholder carrying the error text; and any exception
    it raises is not an [Exception] (only a [BaseException] such as
    [CancelledError] raised by the session passes through). *)
Theorem call_tool_never_raises (mgr : McpClientManager) (server_name tool_name : string)
  (arguments : list (string * pyval)) (w : world) :
  (dict_get server_name (sessions mgr) = None ->
   fst (call_tool mgr server_name tool_name arguments w)
   = Returns (RetValue (placeholder "content"
       ("[Tool execution failed: MCP server '" ++ server_name ++ "' is not connected]"))))
  /\ (forall session e,
      dict_get server_name (sessions mgr) = Some session ->
      sess_call_tool session tool_name arguments = Raises e ->
      is_Exception e = true ->
      fst (call_tool mgr server_name tool_name arguments w)
      = Returns (RetValue (placeholder "content" ("[Tool execution error: " ++ exc_msg e ++ "]"))))
  /\ (forall e, fst (call_tool mgr server_name tool_name arguments w) = Raises e ->
      is_Exception e = false).
Proof.
  unfold call_tool. split; [|split].
  - intros ->. reflexivity.
  - intros session e -> Hc He. unfold try_except, mbind, PyM_bind, py_bind, lift.
    rewrite Hc, He. reflexivity.
  - intros e. destruct (dict_get server_name (sessions mgr)) as [session|]; [|discriminate].
    unfold try_except, mbind, PyM_bind, py_bind, lift.
    destruct (sess_call_tool session tool_name arguments) as [r|e']; [discriminate|].
    destruct (is_Exception e') eqn:He; [discriminate|].
    intros H. injection H as <-. exact He.
Qed.

Lemma call_tool_never_raises_witness :
  dict_get "down" (sessions demo_mgr) = None
  /\ fst (call_tool demo_mgr "down" "t" [] empty_world)
     = Returns (RetValue (placeholder "content"
         ("[Tool execution failed: MCP server '" ++ "down" ++ "' is not connected]")))
  /\ dict_get "up" (sessions demo_mgr) = Some failing_session
  /\ sess_call_tool failing_session "t" []
     = Raises {| exc_type := RuntimeError; exc_msg := "tool crashed" |}
  /\ is_Exception {| exc_type := RuntimeError; exc_msg := "tool crashed" |} = true
  /\ fst (call_tool demo_mgr "up" "t" [] empty_world)
     = Returns (RetValue (placeholder "content"
         ("[Tool execution error: " ++ "tool crashed" ++ "]"))).
Proof.
  split; [reflexivity|].
  split; [apply (proj1 (call_tool_never_raises demo_mgr "down" "t" [] empty_world));
          reflexivity|].
  split; [reflexivity|]. split; [reflexivity|]. split; [reflexivity|].
  apply (proj1 (proj2 (call_tool_never_raises demo_mgr "up" "t" [] empty_world))
           failing_session {| exc_type := RuntimeError; exc_msg := "tool crashed" |});
    reflexivity.
Defined.

(** ** [_extract_pydantic_classes] *)

(** C4 (counterexample): a namespace with one schema class bound to two
    names, [Person] and [Alias], gives two entries, and the entry [Alias]
    is keyed by a name that is not the class's name. *)
Lemma alias_gives_two_entries :
  size (_extract_pydantic_classes alias_module) = 2%nat
  /\ (pci_cls <$> _extract_pydantic_classes alias_module !! "Alias") = Some person_class
  /\ (pci_cls <$> _extract_pydantic_classes alias_module !! "Person") = Some person_class
  /\ cls_name person_class <> "Alias".
Proof. vm_compute. split; [reflexivity|]. split; [reflexivity|]. split; [reflexivity|]. discriminate. Qed.

(** C4: the extracted map has one entry for each top-level name of the
    namespace bound to a class that is a subclass of [BaseModel] and not
    [BaseModel] itself, keyed by that name (not by the class's own name),
    so its size is the number of such bindings; no entry is [BaseModel]. *)
Theorem extract_one_entry_per_binding (module : PyModule) :
  (forall name info,
     _extract_pydantic_classes module !! name = Some info <->
     exists c, mod_ns module !! name = Some (OClass c)
               /\ is_pydantic_class (OClass c) = true /\ info = class_info c)
  /\ size (_extract_pydantic_classes module)
     = size (filter (fun kv : string * PyObj => is_pydantic_class kv.2 = true) (mod_ns module))
  /\ (forall name info, _extract_pydantic_classes module !! name = Some info ->
      cls_id (pci_cls info) <> basemodel_id).
Proof.
  split; [intros; apply extract_lookup|]. split; [apply extract_size|].
  intros name info H. apply extract_lookup in H as (c & _ & Hp & ->).
  simpl. simpl in Hp. apply andb_prop in Hp as [_ Hp].
  apply negb_true_iff, Nat.eqb_neq in Hp. exact Hp.
Qed.

Lemma extract_one_entry_per_binding_witness :
  _extract_pydantic_classes alias_module !! "Alias" = Some (class_info person_class)
  /\ size (_extract_pydantic_classes alias_module)
     = size (filter (fun kv : string * PyObj => is_pydantic_class kv.2 = true)
               (mod_ns alias_module)).
Proof.
  destruct (extract_one_entry_per_binding alias_module) as (Hl & Hs & _).
  split; [|exact Hs].
  apply Hl. exists person_class. split; [vm_compute; reflexivity | split; reflexivity].
Defined.

(** ** No schema class *)

(** C5: when the document parses, its code region executes without raising
    and binds no schema class, and the MCP servers fail only with
    [Exception]s, the pipeline raises the [ValueError] "No Pydantic classes
    found in the template file", and after parsing it records no render
    and no write: only the opening and closing of the MCP connections when
    servers are configured. *)
Theorem no_classes_no_render (e : pipeline_env) (template_path output_dir : string)
  (w w1 : world) (tf : TemplateFile) (ns : gmap string PyObj)
  (Hparse : from_file (env_fs e) template_path w = (Returns tf, w1))
  (Hexec : env_exec e (python_code tf) = (ns, None))
  (Hnone : map_Forall (fun _ o => is_pydantic_class o = false) ns)
  (Hconn : connect_fails_softly (env_connect e)) :
  fst (async_process e template_path output_dir w)
  = Raises {| exc_type := ValueError; exc_msg := "No Pydantic classes found in the template file" |}
  /\ w_trace (snd (async_process e template_path output_dir w))
     = (w_trace w1 ++ (if Nat.eqb (List.length (mcp_servers (config tf))) 0 then []
                       else [EvMcpInit; EvMcpClose]))%list.
Proof.
  unfold async_process. rewrite (bind_returns _ _ _ _ _ Hparse).
  destruct (Nat.eqb (List.length (mcp_servers (config tf))) 0).
  - rewrite (bind_returns (mret None) _ w1 None w1 eq_refl).
    unfold try_finally.
    destruct (render_and_write e template_path output_dir tf None w1) as [r w2] eqn:Er.
    destruct (render_no_classes e template_path output_dir tf None ns w1 Hexec Hnone) as [H1 H2].
    rewrite Er in H1, H2. simpl in H1, H2 |- *. rewrite H1, H2, app_nil_r. split; reflexivity.
  - set (W1 := snd (record_event EvMcpInit w1)).
    assert (Hr : record_event EvMcpInit w1 = (Returns tt, W1)) by reflexivity.
    destruct (init_servers_soft _ Hconn (mcp_servers (config tf)) (new_manager (config tf)) W1)
      as (m' & Hm1 & Hm2).
    destruct (init_servers (env_connect e) (new_manager (config tf)) (mcp_servers (config tf)) W1)
      as [o W3] eqn:Ei.
    simpl in Hm1, Hm2. subst o.
    assert (Hi : initialize (env_connect e) (new_manager (config tf)) W1 = (Returns m', W3))
      by exact Ei.
    match goal with |- context [ ((?M ≫= _) w1) ] =>
      assert (Hmgr : M w1 = (Returns (Some m'), W3)) end.
    { rewrite (bind_returns _ _ _ _ _ Hr). cbv beta. apply try_except_returns.
      rewrite (bind_returns _ _ _ _ _ Hi). reflexivity. }
    rewrite (bind_returns _ _ _ _ _ Hmgr).
    unfold try_finally.
    destruct (render_and_write e template_path output_dir tf (Some m') W3) as [r W4] eqn:Er.
    destruct (render_no_classes e template_path output_dir tf (Some m') ns W3 Hexec Hnone)
      as [H1 H2].
    rewrite Er in H1, H2. simpl in H1, H2. subst r.
    split; [reflexivity|]. simpl. rewrite H2, Hm2. subst W1. simpl.
    rewrite <- app_assoc. reflexivity.
Qed.

Lemma no_classes_no_render_witness :
  exists tf w1,
    from_file (env_fs no_class_env) "t/server.py" empty_world = (Returns tf, w1)
    /\ env_exec no_class_env (python_code tf) = (no_class_ns, None)
    /\ map_Forall (fun _ o => is_pydantic_class o = false) no_class_ns
    /\ connect_fails_softly (env_connect no_class_env)
    /\ List.length (mcp_servers (config tf)) = 1%nat
    /\ (fst (async_process no_class_env "t/server.py" "out" empty_world)
        = Raises {| exc_type := ValueError;
                    exc_msg := "No Pydantic classes found in the template file" |}
        /\ w_trace (snd (async_process no_class_env "t/server.py" "out" empty_world))
           = (w_trace w1 ++ (if Nat.eqb (List.length (mcp_servers (config tf))) 0 then []
                             else [EvMcpInit; EvMcpClose]))%list).
Proof.
  destruct (from_file (env_fs no_class_env) "t/server.py" empty_world) as [o w1] eqn:Ef.
  pose proof Ef as Ef'. vm_compute in Ef'. injection Ef' as Eo _. subst o.
  assert (Hns : map_Forall (fun _ o => is_pydantic_class o = false) no_class_ns)
    by (apply (bool_decide_unpack _); vm_compute; reflexivity).
  assert (Hc : connect_fails_softly (env_connect no_class_env)) by (intros n sc; exact eq_refl).
  eexists _, w1. split; [reflexivity|]. split; [reflexivity|].
  split; [exact Hns|]. split; [exact Hc|]. split; [reflexivity|].
  apply (no_classes_no_render no_class_env "t/server.py" "out" empty_world w1 _ no_class_ns);
    [exact Ef | reflexivity | exact Hns | exact Hc].
Defined.

(** ** Unusable [mcp-servers] values *)




(** ** The output file name *)

(** C8 (counterexample): [output-file = ""] is present, yet the output is
    written to the document's stem with [.md]. *)
Lemma empty_output_file_uses_stem :
  match fst (from_file person_fs "t/person.py" empty_world) with
  | Returns tf => output_file (config tf) = Some ""
  | Raises _ => False
  end
  /\ fst (async_process person_env "t/person.py" "out" empty_world) = Returns "out/person.md".
Proof. split; vm_compute; reflexivity. Qed.

(** C8: when the pipeline returns a path, it is the output directory
    joined with the configured [output-file] when that is present and
    non-empty, and with the document's stem plus [.md] when [output-file]
    is absent or empty. *)
Theorem output_path_default (e : pipeline_env) (template_path output_dir : string)
  (w : world) (p : string)
  (Hrun : fst (async_process e template_path output_dir w) = Returns p) :
  exists tf w1,
    from_file (env_fs e) template_path w = (Returns tf, w1)
    /\ p = path_join output_dir (output_filename (config tf) template_path)
    /\ (output_file (config tf) = None \/ output_file (config tf) = Some "" ->
        p = path_join output_dir (path_stem template_path ++ ".md"))
    /\ (forall s, output_file (config tf) = Some s -> s <> "" ->
        p = path_join output_dir s).
Proof.
  revert Hrun. unfold async_process.
  destruct (from_file (env_fs e) template_path w) as [[tf|ex] w1] eqn:Ef;
    [|unfold mbind, PyM_bind, py_bind; rewrite Ef; discriminate].
  rewrite (bind_returns _ _ _ _ _ Ef).
  unfold mbind at 1, PyM_bind at 1, py_bind at 1.
  match goal with |- context [ match ?M w1 with _ => _ end ] =>
    destruct (M w1) as [[mgr|ex] w2] end; [|discriminate].
  unfold try_finally.
  destruct (render_and_write e template_path output_dir tf mgr w2) as [r w3] eqn:Er.
  destruct (match mgr with Some m => close m | None => mret () end w3) as [[u|ex] w4];
    simpl; [|discriminate].
  intros ->.
  assert (Hp : p = path_join output_dir (output_filename (config tf) template_path)).
  { apply (render_and_write_path e template_path output_dir tf mgr w2). rewrite Er. reflexivity. }
  exists tf, w1. split; [reflexivity|]. split; [exact Hp|]. split.
  - intros [Hn | Hn]; rewrite Hp; unfold output_filename; rewrite Hn; reflexivity.
  - intros s Hs Hne. rewrite Hp. unfold output_filename. rewrite Hs.
    apply String.eqb_neq in Hne. rewrite Hne. reflexivity.
Qed.

Lemma output_path_default_witness :
  fst (async_process person_env "t/person.py" "out" empty_world) = Returns "out/person.md"
  /\ exists tf w1,
    from_file (env_fs person_env) "t/person.py" empty_world = (Returns tf, w1)
    /\ "out/person.md" = path_join "out" (output_filename (config tf) "t/person.py")
    /\ (output_file (config tf) = None \/ output_file (config tf) = Some "" ->
        "out/person.md" = path_join "out" (path_stem "t/person.py" ++ ".md"))
    /\ (forall s, output_file (config tf) = Some s -> s <> "" ->
        "out/person.md" = path_join "out" s).
Proof.
  assert (H : fst (async_process person_env "t/person.py" "out" empty_world)
              = Returns "out/person.md") by (vm_compute; reflexivity).
  split; [exact H|]. exact (output_path_default person_env "t/person.py" "out" empty_world _ H).
Defined.


(* ------------------------------------------------------------------ *)
(** * Further properties of the code *)

Lemma dict_get_set_ne {V} (k k' : string) (v : V) (d : list (string * V)) :
  k <> k' -> dict_get k (dict_set k' v d) = dict_get k d.
Proof.
  intros Hne. induction d as [|[k0 v0] d IH]; simpl.
  - apply String.eqb_neq in Hne. rewrite Hne. reflexivity.
  - destruct (String.eqb k' k0) eqn:E; simpl.
    + apply String.eqb_eq in E. subst k0.
      apply String.eqb_neq in Hne. rewrite Hne. reflexivity.
    + destruct (String.eqb k k0); [reflexivity | exact IH].
Qed.

Lemma dict_get_app {V} (k : string) (l1 l2 : list (string * V)) :
  dict_get k (l1 ++ l2)%list =
  match dict_get k l1 with Some v => Some v | None => dict_get k l2 end.
Proof.
  induction l1 as [|[k0 v0] l1 IH]; simpl; [reflexivity|].
  destruct (String.eqb k k0); [reflexivity | exact IH].
Qed.

Lemma fold_dict_set_get {A V} (f : A -> V) (k : string) :
  forall (l : list (string * A)) (c : list (string * V)),
  dict_get k (fold_left (fun ctx '(k', x) => dict_set k' (f x) ctx) l c)
  = match dict_get k (rev l) with Some x => Some (f x) | None => dict_get k c end.
Proof.
  induction l as [|[k0 x0] l IH]; intros c; simpl; [reflexivity|].
  rewrite IH, dict_get_app. simpl.
  destruct (dict_get k (rev l)); [reflexivity|].
  destruct (String.eqb k k0) eqn:E.
  - apply String.eqb_eq in E. subst. apply dict_get_set_eq.
  - apply String.eqb_neq in E. apply dict_get_set_ne. exact E.
Qed.

Lemma fold_dict_set_names_get {V} (g : string -> V) (k : string) :
  forall (ns : list string) (c : list (string * V)),
  dict_get k (fold_left (fun ctx n => dict_set n (g n) ctx) ns c)
  = if bool_decide (k ∈ ns) then Some (g k) else dict_get k c.
Proof.
  induction ns as [|n ns IH]; intros c; cbn [fold_left].
  - rewrite bool_decide_eq_false_2; [reflexivity|]. apply not_elem_of_nil.
  - rewrite IH. destruct (bool_decide (k ∈ ns)) eqn:E.
    + rewrite bool_decide_eq_true_2; [reflexivity|].
      apply bool_decide_eq_true in E. apply list_elem_of_further. exact E.
    + apply bool_decide_eq_false in E.
      destruct (String.eqb k n) eqn:En.
      * apply String.eqb_eq in En. subst n.
        rewrite bool_decide_eq_true_2 by apply list_elem_of_here. apply dict_get_set_eq.
      * apply String.eqb_neq in En.
        rewrite bool_decide_eq_false_2.
        { apply dict_get_set_ne. exact En. }
        intros Hin. apply elem_of_cons in Hin as [-> | Hin]; [apply En; reflexivity | apply E; exact Hin].
Qed.

Lemma dict_get_Some_in {V} (k : string) (v : V) (l : list (string * V)) :
  dict_get k l = Some v -> (k, v) ∈ l.
Proof.
  induction l as [|[k0 v0] l IH]; simpl; [discriminate|].
  destruct (String.eqb k k0) eqn:E.
  - intros H. injection H as <-. apply String.eqb_eq in E. subst. apply list_elem_of_here.
  - intros H. apply list_elem_of_further. apply IH. exact H.
Qed.

Lemma dict_get_None_notin {V} (k : string) (l : list (string * V)) :
  dict_get k l = None <-> k ∉ map fst l.
Proof.
  induction l as [|[k0 v0] l IH]; simpl.
  - split; [intros _; apply not_elem_of_nil | reflexivity].
  - destruct (String.eqb k k0) eqn:E.
    + apply String.eqb_eq in E. subst. split; [discriminate|].
      intros H. exfalso. apply H. apply list_elem_of_here.
    + apply String.eqb_neq in E. rewrite IH. rewrite elem_of_cons. tauto.
Qed.

Lemma dict_get_nodup_in {V} (k : string) (v : V) (l : list (string * V)) :
  NoDup (map fst l) -> (k, v) ∈ l -> dict_get k l = Some v.
Proof.
  induction l as [|[k0 v0] l IH]; simpl; intros Hnd Hin.
  - apply not_elem_of_nil in Hin. contradiction.
  - inversion Hnd as [|? ? Hnin Hnd']; subst.
    apply elem_of_cons in Hin as [Heq | Hin].
    + injection Heq as -> ->. rewrite String.eqb_refl. reflexivity.
    + destruct (String.eqb k k0) eqn:E.
      * apply String.eqb_eq in E. subst. exfalso. apply Hnin.
        apply list_elem_of_fmap. exists (k0, v). split; [reflexivity | exact Hin].
      * apply IH; assumption.
Qed.

Lemma dict_get_rev_map_to_list {V} (m : gmap string V) (k : string) :
  dict_get k (rev (map_to_list m)) = m !! k.
Proof.
  assert (Hnd : NoDup (map fst (rev (map_to_list m)))).
  { rewrite map_rev, <- Permutation_rev. apply NoDup_fst_map_to_list. }
  destruct (m !! k) as [v|] eqn:E.
  - apply dict_get_nodup_in; [exact Hnd|].
    rewrite <- Permutation_rev. apply elem_of_map_to_list. exact E.
  - apply dict_get_None_notin. rewrite map_rev, <- Permutation_rev.
    intros Hin. apply list_elem_of_fmap in Hin as [[k' v] [Hk Hin]]. simpl in Hk. subst k'.
    apply elem_of_map_to_list in Hin. congruence.
Qed.

Lemma dict_get_rev_nodup {V} (k : string) (l : list (string * V)) :
  NoDup (map fst l) -> dict_get k (rev l) = dict_get k l.
Proof.
  intros Hnd.
  assert (Hnd' : NoDup (map fst (rev l))) by (rewrite map_rev, <- Permutation_rev; exact Hnd).
  destruct (dict_get k l) as [v|] eqn:E.
  - apply dict_get_nodup_in; [exact Hnd'|].
    rewrite <- Permutation_rev. apply dict_get_Some_in. exact E.
  - apply dict_get_None_notin. rewrite map_rev, <- Permutation_rev.
    apply dict_get_None_notin. exact E.
Qed.

(** [render]: a name of the context Jinja sees is, by precedence, the MCP
    entry of the extension, one of the four standard modules, a schema
    class of that name, and only then one of the five base entries; so a
    schema class named [config] or [module] hides the base entry, and one
    named [json] is hidden by the module. *)
Theorem render_context_lookup (tf : TemplateFile) (mi : PydanticModuleInfo)
  (mgr : option McpClientManager) (k : string) :
  dict_get k (render_context tf mi mgr)
  = match dict_get k (context_extension mgr) with
    | Some v => Some v
    | None =>
        if bool_decide (k ∈ ["datetime"; "typing"; "pydantic"; "json"]) then Some (CStdModule k)
        else match mi_classes mi !! k with
             | Some info => Some (CClass (pci_cls info))
             | None =>
                 dict_get k
                   [("module", CModule (mi_module mi)); ("config", CConfig (config tf));
                    ("pydantic_docs", CDocs (pci_doc <$> mi_classes mi));
                    ("pydantic_fields", CFields (pci_fields <$> mi_classes mi));
                    ("get_schema_json", CSchemaJsonFilter)]
             end
    end.
Proof.
  unfold render_context.
  rewrite (fold_dict_set_get (fun v => v) k (context_extension mgr)).
  rewrite dict_get_rev_nodup
    by (destruct mgr; apply (bool_decide_unpack _); vm_compute; reflexivity). destruct (dict_get k (context_extension mgr)) as [v|]; [reflexivity|].
  unfold _build_context.
  rewrite (fold_dict_set_names_get CStdModule k).
  destruct (bool_decide _); [reflexivity|].
  rewrite (fold_dict_set_get (fun info => CClass (pci_cls info)) k).
  rewrite dict_get_rev_map_to_list. reflexivity.
Qed.

Lemma try_finally_ret_tt {A} (m : PyM A) (w : world) :
  try_finally m (mret tt) w = m w.
Proof. unfold try_finally. destruct (m w). reflexivity. Qed.

(** [main]: exit code 0 when the pipeline returns (nothing more is
    printed); when it raises an [Exception], exit code 1 after printing
    "Error: " and the message; any other exception propagates. *)
Theorem main_exit_code (e : pipeline_env) (template output : string) (w : world) :
  (forall p, fst (async_process e template output w) = Returns p ->
     main e template output w = (Returns 0%nat, snd (async_process e template output w)))
  /\ (forall ex, fst (async_process e template output w) = Raises ex -> is_Exception ex = true ->
     main e template output w
     = (Returns 1%nat, snd (print ("Error: " ++ exc_msg ex) (snd (async_process e template output w)))))
  /\ (forall ex, fst (async_process e template output w) = Raises ex -> is_Exception ex = false ->
     main e template output w = (Raises ex, snd (async_process e template output w))).
Proof.
  unfold main, try_except, mbind, PyM_bind, py_bind.
  destruct (async_process e template output w) as [[p|ex] w'] eqn:E; simpl.
  - split; [reflexivity|]. split; intros ex H; discriminate.
  - split; [intros p H; discriminate|].
    split; intros ex' H Hx; injection H as <-; rewrite Hx; reflexivity.
Qed.

(** [main] on a template path that does not exist prints "Error: Template
    file not found: <path>" and returns 1, with nothing else done. *)
Theorem main_missing_template (e : pipeline_env) (template output : string) (w : world) :
  env_fs e template = FMissing ->
  main e template output w
  = (Returns 1%nat, snd (print ("Error: " ++ "Template file not found: " ++ template) w)).
Proof.
  intros H. unfold main, async_process, from_file, path_exists. rewrite H.
  reflexivity.
Qed.

(** [async_process] with no MCP server configured is exactly the parse
    followed by rendering without a manager: no MCP connection is opened or
    closed. *)
Theorem async_process_without_servers (e : pipeline_env) (template_path output_dir : string)
  (w w1 : world) (tf : TemplateFile) :
  from_file (env_fs e) template_path w = (Returns tf, w1) ->
  mcp_servers (config tf) = [] ->
  async_process e template_path output_dir w = render_and_write e template_path output_dir tf None w1.
Proof.
  intros Hparse Hs. unfold async_process. rewrite (bind_returns _ _ _ _ _ Hparse).
  rewrite Hs. cbn [List.length Nat.eqb].
  rewrite (bind_returns (mret None) _ w1 None w1 eq_refl).
  apply try_finally_ret_tt.
Qed.

(** [async_process] with MCP servers configured (whose failures are
    [Exception]s) opens the manager, then has the outcome of rendering --
    returned path or exception alike -- and closes the manager as its last
    step. *)
Theorem async_process_closes_mcp (e : pipeline_env) (template_path output_dir : string)
  (w w1 : world) (tf : TemplateFile)
  (Hparse : from_file (env_fs e) template_path w = (Returns tf, w1))
  (Hservers : mcp_servers (config tf) <> [])
  (Hconn : connect_fails_softly (env_connect e)) :
  exists m W3,
    w_trace W3 = (w_trace w1 ++ [EvMcpInit])%list
    /\ fst (async_process e template_path output_dir w)
       = fst (render_and_write e template_path output_dir tf (Some m) W3)
    /\ w_trace (snd (async_process e template_path output_dir w))
       = (w_trace (snd (render_and_write e template_path output_dir tf (Some m) W3)) ++ [EvMcpClose])%list.
Proof.
  unfold async_process. rewrite (bind_returns _ _ _ _ _ Hparse).
  destruct (Nat.eqb (List.length (mcp_servers (config tf))) 0) eqn:Hl.
  { apply Nat.eqb_eq in Hl. destruct (mcp_servers (config tf)); [contradiction | discriminate]. }
  set (W1 := snd (record_event EvMcpInit w1)).
  assert (Hr : record_event EvMcpInit w1 = (Returns tt, W1)) by reflexivity.
  destruct (init_servers_soft _ Hconn (mcp_servers (config tf)) (new_manager (config tf)) W1)
    as (m' & Hm1 & Hm2).
  destruct (init_servers (env_connect e) (new_manager (config tf)) (mcp_servers (config tf)) W1)
    as [o W3] eqn:Ei.
  simpl in Hm1, Hm2. subst o.
  assert (Hi : initialize (env_connect e) (new_manager (config tf)) W1 = (Returns m', W3))
    by exact Ei.
  match goal with |- context [ ((?M ≫= _) w1) ] =>
    assert (Hmgr : M w1 = (Returns (Some m'), W3)) end.
  { rewrite (bind_returns _ _ _ _ _ Hr). cbv beta. apply try_except_returns.
    rewrite (bind_returns _ _ _ _ _ Hi). reflexivity. }
  rewrite (bind_returns _ _ _ _ _ Hmgr).
  exists m', W3. split; [rewrite Hm2; reflexivity|].
  unfold try_finally.
  destruct (render_and_write e template_path output_dir tf (Some m') W3) as [r W4].
  split; reflexivity.
Qed.

(** [render_and_write] returns a path [p] only once Jinja has rendered
    the template on [render_context]; [p] then holds exactly the rendered
    text, and the steps recorded are the render and then the write of [p]. *)
Theorem render_and_write_effects (e : pipeline_env) (template_path output_dir : string)
  (tf : TemplateFile) (mgr : option McpClientManager) (w : world) (p : string) :
  let module_name := "pydantic_module_" ++ nat_to_string (env_code_id e) in
  let module := {| mod_name := module_name; mod_ns := fst (env_exec e (python_code tf)) |} in
  let mi := {| mi_module := module; mi_classes := _extract_pydantic_classes module |} in
  let r := render_and_write e template_path output_dir tf mgr w in
  fst r = Returns p ->
  exists rendered,
    env_render e (template_content tf) (render_context tf mi mgr) = Returns rendered
    /\ w_files (snd r) !! p = Some rendered
    /\ w_trace (snd r) = (w_trace w ++ [EvRender; EvWrite p])%list.
Proof.
  cbv zeta. unfold render_and_write, load, _load_as_module.
  unfold mbind, PyM_bind, py_bind, try_finally.
  destruct (env_exec e (python_code tf)) as [ns [err|]]; simpl; [discriminate|].
  destruct (negb (has_classes _)); simpl; [discriminate|].
  unfold lift. fold (render_context tf
    {| mi_module := {| mod_name := "pydantic_module_" ++ nat_to_string (env_code_id e); mod_ns := ns |};
       mi_classes := _extract_pydantic_classes
         {| mod_name := "pydantic_module_" ++ nat_to_string (env_code_id e); mod_ns := ns |} |} mgr).
  destruct (env_render e _ _) as [rendered|ex]; simpl; [|discriminate].
  intros Hp. exists rendered. split; [reflexivity|].
  revert Hp. unfold mkdir, write_output.
  destruct (env_fs e output_dir); simpl; try discriminate;
    destruct (env_fs e (path_join output_dir _)); simpl; try discriminate;
    repeat (match goal with
            | |- context [if ?b then _ else _] => destruct b
            | |- context [match env_fs e ?d with _ => _ end] => destruct (env_fs e d)
            end; simpl; try discriminate);
    intros H; injection H as <-;
    (split; [apply lookup_insert_eq | rewrite <- app_assoc; reflexivity]).
Qed.

(** [read_resource]: the "not connected" placeholder for a server without
    session; the session's value when the read succeeds (nothing printed);
    the error placeholder when the read raises an [Exception]; only a
    non-[Exception] escapes. *)
Theorem read_resource_outcomes (mgr : McpClientManager) (server_name resource_uri : string)
  (w : world) :
  (dict_get server_name (sessions mgr) = None ->
   fst (read_resource mgr server_name resource_uri w)
   = Returns (RetValue (placeholder "contents"
       ("[Resource read failed: MCP server '" ++ server_name ++ "' is not connected]"))))
  /\ (forall session v,
      dict_get server_name (sessions mgr) = Some session ->
      sess_read_resource session resource_uri = Returns v ->
      read_resource mgr server_name resource_uri w = (Returns (RetValue v), w))
  /\ (forall session e,
      dict_get server_name (sessions mgr) = Some session ->
      sess_read_resource session resource_uri = Raises e ->
      is_Exception e = true ->
      fst (read_resource mgr server_name resource_uri w)
      = Returns (RetValue (placeholder "contents" ("[Resource read error: " ++ exc_msg e ++ "]"))))
  /\ (forall e, fst (read_resource mgr server_name resource_uri w) = Raises e ->
      is_Exception e = false).
Proof.
  unfold read_resource. split; [|split; [|split]].
  - intros ->. reflexivity.
  - intros session v -> Hr. unfold try_except, mbind, PyM_bind, py_bind, lift.
    rewrite Hr. reflexivity.
  - intros session e -> Hr He. unfold try_except, mbind, PyM_bind, py_bind, lift.
    rewrite Hr, He. reflexivity.
  - intros e. destruct (dict_get server_name (sessions mgr)) as [session|]; [|discriminate].
    unfold try_except, mbind, PyM_bind, py_bind, lift.
    destruct (sess_read_resource session resource_uri) as [r|e']; [discriminate|].
    destruct (is_Exception e') eqn:He; [discriminate|].
    intros H. injection H as <-. exact He.
Qed.

(** The sessions [init_server] leaves: the new session under [name] when
    the server started, the old ones otherwise. *)
Lemma init_server_sessions connect mgr name sc n :
  dict_get n (sessions (fst (init_server connect mgr name sc)))
  = if String.eqb n name
    then match connect name sc with
         | Returns s => Some s
         | Raises _ => dict_get n (sessions mgr)
         end
    else dict_get n (sessions mgr).
Proof.
  unfold init_server.
  destruct (String.eqb n name) eqn:E.
  - apply String.eqb_eq in E. subst n.
    destruct (connect name sc) as [s|ex]; [|reflexivity].
    destruct (sess_list_tools s); [destruct (sess_list_resources s)|]; simpl; apply dict_get_set_eq.
  - apply String.eqb_neq in E.
    destruct (connect name sc) as [s|ex]; [|reflexivity].
    destruct (sess_list_tools s); [destruct (sess_list_resources s)|]; simpl;
      apply dict_get_set_ne; exact E.
Qed.

Lemma init_servers_cons_returns connect mgr name sc rest w m' :
  fst (init_servers connect mgr ((name, sc) :: rest) w) = Returns m' ->
  exists w1, fst (init_servers connect (fst (init_server connect mgr name sc)) rest w1) = Returns m'.
Proof.
  cbn [init_servers].
  destruct (init_server connect mgr name sc) as [m1 [ex|]]; cbn [fst].
  - destruct (is_Exception ex); [|discriminate].
    unfold mbind, PyM_bind, py_bind, print, modify_world. cbv beta iota. eauto.
  - unfold mbind, PyM_bind, py_bind, print, modify_world. cbv beta iota. eauto.
Qed.

Lemma init_servers_other connect n :
  forall servers mgr w m',
  n ∉ map fst servers ->
  fst (init_servers connect mgr servers w) = Returns m' ->
  dict_get n (sessions m') = dict_get n (sessions mgr).
Proof.
  induction servers as [|[name sc] rest IH]; intros mgr w m' Hn H.
  - simpl in H. injection H as <-. reflexivity.
  - apply init_servers_cons_returns in H as [w1 H].
    simpl in Hn. rewrite elem_of_cons in Hn.
    rewrite (IH _ _ _ ltac:(tauto) H), init_server_sessions.
    destruct (String.eqb n name) eqn:E; [|reflexivity].
    apply String.eqb_eq in E. tauto.
Qed.

(** [initialize]: a server that cannot be started gets no session, so a
    later [call_tool] on it returns the "not connected" placeholder. *)
Theorem unstarted_server_not_connected connect (mgr : McpClientManager)
  (servers : list (string * McpServerConfig)) (name : string) (w : world) (m' : McpClientManager) :
  (forall sc, exists ex, connect name sc = Raises ex) ->
  dict_get name (sessions mgr) = None ->
  fst (init_servers connect mgr servers w) = Returns m' ->
  dict_get name (sessions m') = None
  /\ forall tool_name arguments w',
     fst (call_tool m' name tool_name arguments w')
     = Returns (RetValue (placeholder "content"
         ("[Tool execution failed: MCP server '" ++ name ++ "' is not connected]"))).
Proof.
  intros Hc Hnone Hi.
  assert (Hs : dict_get name (sessions m') = None).
  { revert mgr w Hnone Hi. induction servers as [|[n sc] rest IH]; intros mgr w Hnone Hi.
    - simpl in Hi. injection Hi as <-. exact Hnone.
    - apply init_servers_cons_returns in Hi as [w1 Hi].
      refine (IH _ _ _ Hi).
      rewrite init_server_sessions.
      destruct (String.eqb name n) eqn:E; [|exact Hnone].
      apply String.eqb_eq in E. subst n.
      destruct (Hc sc) as [ex ->]. exact Hnone. }
  split; [exact Hs|].
  intros tool_name arguments w'. unfold call_tool. rewrite Hs. reflexivity.
Qed.

(** [initialize]: a server that starts keeps its session even when
    listing its tools or resources then fails (server names unique, as in
    the configuration mapping). *)
Theorem connected_server_has_session connect (mgr : McpClientManager)
  (servers : list (string * McpServerConfig)) (name : string) (sc : McpServerConfig)
  (s : ClientSession) (w : world) (m' : McpClientManager) :
  NoDup (map fst servers) ->
  (name, sc) ∈ servers ->
  connect name sc = Returns s ->
  fst (init_servers connect mgr servers w) = Returns m' ->
  dict_get name (sessions m') = Some s.
Proof.
  revert mgr w. induction servers as [|[n sc0] rest IH]; intros mgr w Hnd Hin Hc Hi.
  - apply not_elem_of_nil in Hin. contradiction.
  - simpl in Hnd. inversion Hnd as [|? ? Hnin Hnd']; subst.
    apply init_servers_cons_returns in Hi as [w1 Hi].
    apply elem_of_cons in Hin as [Heq | Hin].
    + injection Heq as -> ->.
      rewrite (init_servers_other _ _ _ _ _ _ Hnin Hi), init_server_sessions.
      rewrite String.eqb_refl, Hc. reflexivity.
    + exact (IH _ _ Hnd' Hin Hc Hi).
Qed.

Lemma dict_set_keys {V} (k x : string) (v : V) (d : list (string * V)) :
  x ∈ map fst (dict_set k v d) <-> x = k \/ x ∈ map fst d.
Proof.
  induction d as [|[k0 v0] d IH]; cbn [dict_set map fst].
  - rewrite elem_of_cons. pose proof (not_elem_of_nil x). tauto.
  - destruct (String.eqb k k0) eqn:E; cbn [map fst].
    + apply String.eqb_eq in E. subst k0. rewrite !elem_of_cons. tauto.
    + rewrite !elem_of_cons, IH. tauto.
Qed.

Lemma dict_set_nodup {V} (k : string) (v : V) (d : list (string * V)) :
  NoDup (map fst d) -> NoDup (map fst (dict_set k v d)).
Proof.
  induction d as [|[k0 v0] d IH]; simpl; intros Hnd.
  - constructor; [apply not_elem_of_nil | constructor].
  - inversion Hnd as [|? ? Hnin Hnd']; subst.
    destruct (String.eqb k k0) eqn:E; simpl.
    + apply String.eqb_eq in E. subst k0. constructor; assumption.
    + apply String.eqb_neq in E. constructor; [|apply IH; exact Hnd'].
      rewrite dict_set_keys. intros [H|H]; [apply E; symmetry; exact H | apply Hnin; exact H].
Qed.

(** [_parse_template_config] never yields the same key twice. *)
Theorem parse_config_keys_unique (lines : list string) :
  NoDup (map fst (parse_config_lines lines)).
Proof.
  unfold parse_config_lines.
  assert (H : forall acc, NoDup (map fst acc) -> NoDup (map fst (fold_left parse_config_line lines acc))).
  { induction lines as [|l lines IH]; intros acc Hacc; simpl; [exact Hacc|].
    apply IH. unfold parse_config_line.
    destruct (String.eqb _ ""); [exact Hacc|].
    destruct (str_contains_char _ _); [|exact Hacc].
    destruct (py_split_once _ _) as [[key value]|]; [|exact Hacc].
    apply dict_set_nodup. exact Hacc. }
  apply H. constructor.
Qed.

(** [_parse_template_config]: the last [key = value] line of a key gives
    its value, whatever earlier lines assigned to it. *)
Theorem parse_config_last_line_wins (lines : list string) (raw_line key value : string) :
  py_split_once "=" (py_strip (py_strip_chars "#" (py_strip raw_line))) = Some (key, value) ->
  dict_get (py_strip key) (parse_config_lines (lines ++ [raw_line])%list) = Some (config_value value).
Proof.
  intros Hs. unfold parse_config_lines. rewrite fold_left_app. cbn [fold_left].
  unfold parse_config_line.
  rewrite (split_once_nonempty _ _ _ _ Hs), (split_once_some _ _ _ _ Hs), Hs.
  apply dict_get_set_eq.
Qed.

Lemma from_raw_config_returns (fs : string -> fs_entry) (d : list (string * pyval))
  (base_dir : option string) (w : world) (cfg : TemplateConfig) :
  fst (from_raw_config fs d base_dir w) = Returns cfg ->
  let d1 := dict_del "output-file" d in
  let d2 := dict_del "imports" d1 in
  let d3 := dict_del "reference-file" d2 in
  let d4 := dict_del "mcp-servers" d3 in
  let d5 := dict_del "mcp-tools" d4 in
  let d6 := dict_del "mcp-resources" d5 in
  exists servers r w1,
    fst (convert_reference_file base_dir (dict_get "reference-file" d2) w1) = Returns r
    /\ construct_TemplateConfig (dict_get "output-file" d) (dict_get "imports" d1) r servers
         (dict_get "mcp-tools" d4) (dict_get "mcp-resources" d5) d6 = Returns cfg.
Proof.
  intros H. unfold from_raw_config, dict_pop in H. cbv beta iota zeta in H.
  unfold mbind, PyM_bind, py_bind in H.
  match type of H with context [match ?M w with _ => _ end] =>
    destruct (M w) as [[servers|ex] w1] end; [|discriminate].
  match type of H with context [match ?M w1 with _ => _ end] =>
    destruct (M w1) as [[r|ex] w2] eqn:Ec end; [|discriminate].
  cbv zeta. exists servers, r, w1. rewrite Ec. split; [reflexivity | exact H].
Qed.

Lemma construct_extra (o i t rs : option pyval) (r : ref_value)
  (servers : list (string * McpServerConfig)) (extra : list (string * pyval)) (cfg : TemplateConfig) :
  construct_TemplateConfig o i r servers t rs extra = Returns cfg ->
  extra_params cfg = extra /\ validate_opt_path r = Returns (reference_file cfg)
  /\ validate_list_default i = Returns (imports cfg).
Proof.
  unfold construct_TemplateConfig.
  destruct (validate_opt_str o), (validate_list_default i), (validate_opt_path r),
    (validate_list_default t), (validate_list_default rs); try discriminate.
  intros H. injection H as <-. auto.
Qed.

Lemma dict_del_nodup {V} (k : string) (d : list (string * V)) :
  NoDup (map fst d) -> NoDup (map fst (dict_del k d)).
Proof.
  induction d as [|[k0 v0] d IH]; simpl; intros Hnd; [exact Hnd|].
  inversion Hnd as [|? ? Hnin Hnd']; subst.
  destruct (String.eqb k k0); [exact Hnd'|]. simpl. constructor; [|apply IH; exact Hnd'].
  intros Hin. apply Hnin. clear -Hin. induction d as [|[k1 v1] d IH]; simpl in *; [exact Hin|].
  destruct (String.eqb k k1); [apply list_elem_of_further; exact Hin|].
  simpl in Hin. apply elem_of_cons in Hin as [->|Hin]; [apply list_elem_of_here|].
  apply list_elem_of_further. apply IH. exact Hin.
Qed.

Lemma dict_get_del {V} (k k' : string) (d : list (string * V)) :
  NoDup (map fst d) ->
  dict_get k (dict_del k' d) = if String.eqb k k' then None else dict_get k d.
Proof.
  intros Hnd. destruct (String.eqb k k') eqn:E.
  - apply String.eqb_eq in E. subst. apply dict_get_del_nodup. exact Hnd.
  - apply String.eqb_neq in E. apply dict_get_del_ne. exact E.
Qed.

(** [from_raw_config]: [extra_params] holds every key of the raw
    configuration other than the six known ones, with its raw value, and
    none of the known ones. *)
Theorem from_raw_config_extra_params (fs : string -> fs_entry) (d : list (string * pyval))
  (base_dir : option string) (w : world) (cfg : TemplateConfig) :
  NoDup (map fst d) ->
  fst (from_raw_config fs d base_dir w) = Returns cfg ->
  forall k, dict_get k (extra_params cfg)
            = if bool_decide (k ∈ ["output-file"; "imports"; "reference-file";
                                   "mcp-servers"; "mcp-tools"; "mcp-resources"])
              then None else dict_get k d.
Proof.
  intros Hnd H k.
  apply from_raw_config_returns in H as (servers & r & w1 & _ & Hc).
  apply construct_extra in Hc as [-> _].
  repeat (rewrite dict_get_del; [|repeat apply dict_del_nodup; exact Hnd]).
  destruct (String.eqb k "mcp-resources") eqn:E1;
    [apply String.eqb_eq in E1; subst; reflexivity|].
  destruct (String.eqb k "mcp-tools") eqn:E2;
    [apply String.eqb_eq in E2; subst; reflexivity|].
  destruct (String.eqb k "mcp-servers") eqn:E3;
    [apply String.eqb_eq in E3; subst; reflexivity|].
  destruct (String.eqb k "reference-file") eqn:E4;
    [apply String.eqb_eq in E4; subst; reflexivity|].
  destruct (String.eqb k "imports") eqn:E5;
    [apply String.eqb_eq in E5; subst; reflexivity|].
  destruct (String.eqb k "output-file") eqn:E6;
    [apply String.eqb_eq in E6; subst; reflexivity|].
  apply String.eqb_neq in E1, E2, E3, E4, E5, E6.
  rewrite bool_decide_eq_false_2; [reflexivity|].
  rewrite !elem_of_cons. pose proof (not_elem_of_nil k). tauto.
Qed.

(** [from_raw_config]: a str [reference-file] is joined to the template's
    directory (an absolute path stays as it is); an empty one becomes
    ".". *)
Theorem reference_file_resolved (fs : string -> fs_entry) (d : list (string * pyval))
  (base_dir : option string) (w : world) (cfg : TemplateConfig) (s : string) :
  dict_get "reference-file" d = Some (PStr s) ->
  fst (from_raw_config fs d base_dir w) = Returns cfg ->
  reference_file cfg
  = Some (if String.eqb s "" then "."
          else match base_dir with Some b => path_join b s | None => s end).
Proof.
  intros Hr H.
  apply from_raw_config_returns in H as (servers & r & w1 & Hconv & Hc).
  apply construct_extra in Hc as [_ [Hv _]].
  rewrite (dict_get_del_ne "reference-file" "imports") in Hconv by discriminate.
  rewrite (dict_get_del_ne "reference-file" "output-file") in Hconv by discriminate.
  rewrite Hr in Hconv. unfold convert_reference_file, py_truthy in Hconv.
  destruct (String.eqb s "") eqn:E; simpl in Hconv.
  - injection Hconv as <-. apply String.eqb_eq in E. subst s.
    simpl in Hv. injection Hv as <-. reflexivity.
  - injection Hconv as <-. simpl in Hv. injection Hv as <-. reflexivity.
Qed.

(** The [mcp-servers] value [from_raw_config] works on. *)
Lemma servers_value (d : list (string * pyval)) :
  dict_get "mcp-servers" (dict_del "reference-file" (dict_del "imports" (dict_del "output-file" d)))
  = dict_get "mcp-servers" d.
Proof.
  rewrite (dict_get_del_ne "mcp-servers" "reference-file") by discriminate.
  rewrite (dict_get_del_ne "mcp-servers" "imports") by discriminate.
  rewrite (dict_get_del_ne "mcp-servers" "output-file") by discriminate.
  reflexivity.
Qed.

Lemma from_raw_config_servers_raise (fs : string -> fs_entry) (d : list (string * pyval))
  (base_dir : option string) (w : world) (v : pyval) (ex : py_exc) :
  dict_get "mcp-servers" d = Some v ->
  fst (load_mcp_servers fs base_dir v w) = Raises ex ->
  fst (from_raw_config fs d base_dir w) = Raises ex.
Proof.
  intros Hv Hl. unfold from_raw_config, dict_pop. cbv beta iota zeta.
  rewrite servers_value, Hv. unfold mbind, PyM_bind, py_bind.
  destruct (load_mcp_servers fs base_dir v w) as [o w1]. simpl in Hl. subst o. reflexivity.
Qed.

(** [from_raw_config]: an inline [mcp-servers] value that is valid JSON but
    not an object is not degraded: [.items()] raises [AttributeError],
    which escapes. *)
Theorem inline_servers_non_object_raises (fs : string -> fs_entry) (d : list (string * pyval))
  (base_dir : option string) (w : world) (s : string) (v : pyval) :
  dict_get "mcp-servers" d = Some (PStr s) ->
  is_file_reference s = false ->
  json_loads s = Some v ->
  (forall items, v <> PDict items) ->
  fst (from_raw_config fs d base_dir w)
  = Raises {| exc_type := AttributeError; exc_msg := "object has no attribute 'items'" |}.
Proof.
  intros Hd Hr Hj Hv. apply (from_raw_config_servers_raise _ _ _ _ _ _ Hd).
  unfold load_mcp_servers. rewrite Hr. unfold json_loads_value. rewrite Hj.
  destruct v; try reflexivity. exfalso. eapply Hv. reflexivity.
Qed.

Lemma add_servers_app (items1 items2 : list (string * pyval)) :
  Forall (fun it => exists c, make_McpServerConfig it.2 = Returns c) items1 ->
  forall acc, exists acc', add_servers (items1 ++ items2)%list acc = add_servers items2 acc'.
Proof.
  induction 1 as [|[name sc] items1 [c Hc] _ IH]; intros acc; simpl.
  - eauto.
  - simpl in Hc. rewrite Hc. apply IH.
Qed.

(** [from_raw_config]: an inline [mcp-servers] entry without a str
    [command] (after valid entries) raises a [ValidationError], which
    escapes. *)
Theorem server_without_command_raises (fs : string -> fs_entry) (d : list (string * pyval))
  (base_dir : option string) (w : world) (s : string)
  (items1 items2 : list (string * pyval)) (name : string) (kvs : list (string * pyval)) :
  dict_get "mcp-servers" d = Some (PStr s) ->
  is_file_reference s = false ->
  json_loads s = Some (PDict (items1 ++ (name, PDict kvs) :: items2)) ->
  Forall (fun it => exists c, make_McpServerConfig it.2 = Returns c) items1 ->
  (forall c, dict_get "command" kvs <> Some (PStr c)) ->
  exists ex, fst (from_raw_config fs d base_dir w) = Raises ex /\ exc_type ex = ValidationError.
Proof.
  intros Hd Hr Hj Hok Hcmd.
  destruct (add_servers_app items1 ((name, PDict kvs) :: items2) Hok []) as [acc Ha].
  exists {| exc_type := ValidationError; exc_msg := "validation error" |}. split; [|reflexivity].
  apply (from_raw_config_servers_raise _ _ _ _ _ _ Hd).
  unfold load_mcp_servers. rewrite Hr. unfold json_loads_value. rewrite Hj.
  unfold load_server_items. rewrite Ha. simpl.
  destruct (dict_get "command" kvs) as [[]|]; try reflexivity.
  exfalso. eapply Hcmd. reflexivity.
Qed.

Lemma str_list_map (l : list pyval) (r : list string) :
  str_list l = Some r -> l = map PStr r.
Proof.
  revert r. induction l as [|x l IH]; intros r H; simpl in H.
  - injection H as <-. reflexivity.
  - destruct x; try discriminate.
    destruct (str_list l) as [r'|] eqn:E; [|discriminate].
    injection H as <-. simpl. rewrite (IH r' eq_refl). reflexivity.
Qed.

Lemma construct_imports_invalid (o i t rs : option pyval) (r : ref_value)
  (servers : list (string * McpServerConfig)) (extra : list (string * pyval)) (ex : py_exc) :
  validate_list_default i = Raises ex ->
  construct_TemplateConfig o i r servers t rs extra = validation_error.
Proof.
  intros H. unfold construct_TemplateConfig. rewrite H.
  destruct (validate_opt_str o); reflexivity.
Qed.

(** [from_raw_config]: an [imports] value that is not a list of str (for
    instance [imports = a.py]) never gives a configuration; with no
    [mcp-servers] and no [reference-file] it raises a [ValidationError]. *)
Theorem imports_not_list_rejected (fs : string -> fs_entry) (d : list (string * pyval))
  (base_dir : option string) (w : world) (v : pyval) :
  dict_get "imports" d = Some v ->
  (forall l, v <> PList (map PStr l)) ->
  (exists ex, fst (from_raw_config fs d base_dir w) = Raises ex)
  /\ (dict_get "mcp-servers" d = None -> dict_get "reference-file" d = None ->
      exists ex, fst (from_raw_config fs d base_dir w) = Raises ex /\ exc_type ex = ValidationError).
Proof.
  intros Hi Hv.
  assert (Hbad : forall r, validate_list_default (Some v) <> Returns r).
  { intros r H. simpl in H. unfold validate_str_list in H.
    destruct v; try discriminate.
    destruct (str_list l) as [r'|] eqn:E; [|discriminate].
    apply (Hv r'). rewrite (str_list_map _ _ E). reflexivity. }
  split.
  - destruct (fst (from_raw_config fs d base_dir w)) as [cfg|ex] eqn:E; [|eauto].
    apply from_raw_config_returns in E as (servers & r & w1 & _ & Hc).
    apply construct_extra in Hc as [_ [_ Hc]].
    rewrite (dict_get_del_ne "imports" "output-file") in Hc by discriminate.
    rewrite Hi in Hc. exfalso. exact (Hbad _ Hc).
  - intros Hs Hr. unfold from_raw_config, dict_pop. cbv beta iota zeta.
    rewrite servers_value, Hs.
    rewrite (dict_get_del_ne "reference-file" "imports") by discriminate.
    rewrite (dict_get_del_ne "reference-file" "output-file") by discriminate.
    rewrite Hr. rewrite (dict_get_del_ne "imports" "output-file") by discriminate.
    rewrite Hi. unfold mbind, PyM_bind, py_bind. simpl.
    destruct (validate_list_default (Some v)) as [r|ex] eqn:E; [exfalso; exact (Hbad r eq_refl)|].
    rewrite (construct_imports_invalid _ _ _ _ _ _ _ _ E).
    eexists. split; reflexivity.
Qed.







(** ** Witnesses of the further properties *)

Lemma main_exit_code_witness :
  fst (async_process person_env "t/person.py" "out" empty_world) = Returns "out/person.md"
  /\ main person_env "t/person.py" "out" empty_world
     = (Returns 0%nat, snd (async_process person_env "t/person.py" "out" empty_world))
  /\ fst (async_process no_class_env "t/server.py" "out" empty_world)
     = Raises {| exc_type := ValueError; exc_msg := "No Pydantic classes found in the template file" |}
  /\ main no_class_env "t/server.py" "out" empty_world
     = (Returns 1%nat, snd (print ("Error: " ++ "No Pydantic classes found in the template file")
                          (snd (async_process no_class_env "t/server.py" "out" empty_world))))
  /\ fst (async_process cancelled_env "t/person.py" "out" empty_world)
     = Raises {| exc_type := CancelledError; exc_msg := "" |}
  /\ main cancelled_env "t/person.py" "out" empty_world
     = (Raises {| exc_type := CancelledError; exc_msg := "" |},
        snd (async_process cancelled_env "t/person.py" "out" empty_world)).
Proof.
  split; [vm_compute; reflexivity|].
  split; [apply (proj1 (main_exit_code person_env "t/person.py" "out" empty_world) "out/person.md");
          vm_compute; reflexivity|].
  split; [vm_compute; reflexivity|].
  split; [apply (proj1 (proj2 (main_exit_code no_class_env "t/server.py" "out" empty_world))
                   {| exc_type := ValueError;
                      exc_msg := "No Pydantic classes found in the template file" |});
          [vm_compute; reflexivity | reflexivity]|].
  split; [vm_compute; reflexivity|].
  apply (proj2 (proj2 (main_exit_code cancelled_env "t/person.py" "out" empty_world))
           {| exc_type := CancelledError; exc_msg := "" |}); [vm_compute; reflexivity | reflexivity].
Defined.

Lemma main_missing_template_witness :
  env_fs person_env "t/missing.py" = FMissing
  /\ main person_env "t/missing.py" "out" empty_world
     = (Returns 1%nat, snd (print ("Error: " ++ "Template file not found: " ++ "t/missing.py") empty_world)).
Proof.
  split; [reflexivity|]. apply main_missing_template. reflexivity.
Defined.

Lemma async_process_without_servers_witness :
  exists tf w1,
    from_file (env_fs person_env) "t/person.py" empty_world = (Returns tf, w1)
    /\ mcp_servers (config tf) = []
    /\ async_process person_env "t/person.py" "out" empty_world
       = render_and_write person_env "t/person.py" "out" tf None w1.
Proof.
  destruct (from_file (env_fs person_env) "t/person.py" empty_world) as [o w1] eqn:Ef.
  pose proof Ef as Ef'. vm_compute in Ef'. injection Ef' as Eo _. subst o.
  eexists _, w1. split; [reflexivity|]. split; [reflexivity|].
  apply async_process_without_servers; [exact Ef | reflexivity].
Defined.

Lemma async_process_closes_mcp_witness :
  exists tf w1,
    from_file (env_fs no_class_env) "t/server.py" empty_world = (Returns tf, w1)
    /\ mcp_servers (config tf) <> []
    /\ connect_fails_softly (env_connect no_class_env)
    /\ exists m W3,
       w_trace W3 = (w_trace w1 ++ [EvMcpInit])%list
       /\ fst (async_process no_class_env "t/server.py" "out" empty_world)
          = fst (render_and_write no_class_env "t/server.py" "out" tf (Some m) W3)
       /\ w_trace (snd (async_process no_class_env "t/server.py" "out" empty_world))
          = (w_trace (snd (render_and_write no_class_env "t/server.py" "out" tf (Some m) W3))
             ++ [EvMcpClose])%list.
Proof.
  destruct (from_file (env_fs no_class_env) "t/server.py" empty_world) as [o w1] eqn:Ef.
  pose proof Ef as Ef'. vm_compute in Ef'. injection Ef' as Eo _. subst o.
  assert (Hc : connect_fails_softly (env_connect no_class_env)) by (intros n sc; exact eq_refl).
  assert (Hs : mcp_servers (config (Build_TemplateFile "t/server.py" "from pydantic import BaseModel"
                 "Hello" {| output_file := None; imports := []; reference_file := None;
                            mcp_servers := [("s", srv_config)]; mcp_tools := [];
                            mcp_resources := []; extra_params := [] |})) <> [])
    by discriminate.
  eexists _, w1. split; [reflexivity|]. split; [exact Hs|]. split; [exact Hc|].
  exact (async_process_closes_mcp no_class_env "t/server.py" "out" empty_world w1 _ Ef Hs Hc).
Defined.

Lemma read_resource_outcomes_witness :
  dict_get "down" (sessions reading_mgr) = None
  /\ fst (read_resource reading_mgr "down" "r://x" empty_world)
     = Returns (RetValue (placeholder "contents"
         ("[Resource read failed: MCP server '" ++ "down" ++ "' is not connected]")))
  /\ read_resource reading_mgr "ok" "r://x" empty_world = (Returns (RetValue (PStr "data")), empty_world)
  /\ fst (read_resource reading_mgr "up" "r://x" empty_world)
     = Returns (RetValue (placeholder "contents" ("[Resource read error: " ++ "read failed" ++ "]"))).
Proof.
  split; [reflexivity|].
  split; [apply (proj1 (read_resource_outcomes reading_mgr "down" "r://x" empty_world));
          reflexivity|].
  split; [apply (proj1 (proj2 (read_resource_outcomes reading_mgr "ok" "r://x" empty_world))
                   reading_session); reflexivity|].
  apply (proj1 (proj2 (proj2 (read_resource_outcomes reading_mgr "up" "r://x" empty_world)))
           failing_session {| exc_type := RuntimeError; exc_msg := "read failed" |});
    reflexivity.
Defined.

Lemma unstarted_server_not_connected_witness :
  fst (init_servers ok_connect (new_manager default_config)
         [("down", srv_config); ("ok", srv_config)] empty_world)
  = Returns {| mgr_config := default_config; sessions := [("ok", reading_session)];
               server_tools := []; server_resources := [] |}
  /\ dict_get "down" (sessions {| mgr_config := default_config; sessions := [("ok", reading_session)];
                                  server_tools := []; server_resources := [] |}) = None
  /\ forall tool_name arguments w',
     fst (call_tool {| mgr_config := default_config; sessions := [("ok", reading_session)];
                       server_tools := []; server_resources := [] |} "down" tool_name arguments w')
     = Returns (RetValue (placeholder "content"
         ("[Tool execution failed: MCP server '" ++ "down" ++ "' is not connected]"))).
Proof.
  split; [reflexivity|].
  apply (unstarted_server_not_connected ok_connect (new_manager default_config)
           [("down", srv_config); ("ok", srv_config)] "down" empty_world).
  - intros sc. eexists. reflexivity.
  - reflexivity.
  - reflexivity.
Defined.

Lemma connected_server_has_session_witness :
  fst (init_servers ok_connect (new_manager default_config)
         [("down", srv_config); ("ok", srv_config)] empty_world)
  = Returns {| mgr_config := default_config; sessions := [("ok", reading_session)];
               server_tools := []; server_resources := [] |}
  /\ dict_get "ok" (sessions {| mgr_config := default_config; sessions := [("ok", reading_session)];
                                server_tools := []; server_resources := [] |})
     = Some reading_session.
Proof.
  split; [reflexivity|].
  apply (connected_server_has_session ok_connect (new_manager default_config)
           [("down", srv_config); ("ok", srv_config)] "ok" srv_config reading_session empty_world).
  - apply (bool_decide_unpack _). vm_compute. reflexivity.
  - apply list_elem_of_further. apply list_elem_of_here.
  - reflexivity.
  - reflexivity.
Defined.

Lemma parse_config_last_line_wins_witness :
  py_split_once "=" (py_strip (py_strip_chars "#" (py_strip (bq "# imports = [`b.py`]"))))
  = Some ("imports ", bq " [`b.py`]")
  /\ dict_get (py_strip "imports ")
       (parse_config_lines ([bq "# imports = [`a.py`]"; "# output-file = x.md"]
                            ++ [bq "# imports = [`b.py`]"])%list)
     = Some (config_value (bq " [`b.py`]"))
  /\ config_value (bq " [`b.py`]") = PList [PStr "b.py"].
Proof.
  split; [vm_compute; reflexivity|].
  split; [apply parse_config_last_line_wins; vm_compute; reflexivity|].
  vm_compute. reflexivity.
Defined.

Lemma from_raw_config_extra_params_witness :
  NoDup (map fst [("output-file", PStr "o.md"); ("author", PStr "me")])
  /\ fst (from_raw_config person_fs [("output-file", PStr "o.md"); ("author", PStr "me")]
            (Some "t") empty_world) = Returns extra_config
  /\ dict_get "author" (extra_params extra_config)
     = if bool_decide ("author" ∈ ["output-file"; "imports"; "reference-file";
                                   "mcp-servers"; "mcp-tools"; "mcp-resources"])
       then None else dict_get "author" [("output-file", PStr "o.md"); ("author", PStr "me")].
Proof.
  assert (Hnd : NoDup (map fst [("output-file", PStr "o.md"); ("author", PStr "me")]))
    by (apply (bool_decide_unpack _); vm_compute; reflexivity).
  assert (Hc : fst (from_raw_config person_fs [("output-file", PStr "o.md"); ("author", PStr "me")]
                      (Some "t") empty_world) = Returns extra_config)
    by (vm_compute; reflexivity).
  split; [exact Hnd|]. split; [exact Hc|].
  exact (from_raw_config_extra_params person_fs _ (Some "t") empty_world extra_config Hnd Hc "author").
Defined.

Lemma reference_file_resolved_witness :
  (exists cfg,
     fst (from_raw_config person_fs [("reference-file", PStr "ref.md")] (Some "t") empty_world)
     = Returns cfg
     /\ reference_file cfg = Some "t/ref.md")
  /\ (exists cfg,
     fst (from_raw_config person_fs [("reference-file", PStr "")] (Some "t") empty_world)
     = Returns cfg
     /\ reference_file cfg = Some ".").
Proof.
  split.
  - destruct (fst (from_raw_config person_fs [("reference-file", PStr "ref.md")] (Some "t") empty_world))
      as [cfg|ex] eqn:E; [|vm_compute in E; discriminate].
    exists cfg. split; [reflexivity|].
    rewrite (reference_file_resolved person_fs [("reference-file", PStr "ref.md")] (Some "t") empty_world cfg "ref.md" eq_refl E).
    reflexivity.
  - destruct (fst (from_raw_config person_fs [("reference-file", PStr "")] (Some "t") empty_world))
      as [cfg|ex] eqn:E; [|vm_compute in E; discriminate].
    exists cfg. split; [reflexivity|].
    rewrite (reference_file_resolved person_fs [("reference-file", PStr "")] (Some "t") empty_world cfg "" eq_refl E).
    reflexivity.
Defined.

Lemma inline_servers_non_object_raises_witness :
  json_loads "[1]" = Some (PList [PInt 1])
  /\ fst (from_raw_config person_fs [("mcp-servers", PStr "[1]")] (Some "t") empty_world)
     = Raises {| exc_type := AttributeError; exc_msg := "object has no attribute 'items'" |}.
Proof.
  split; [vm_compute; reflexivity|].
  apply (inline_servers_non_object_raises person_fs _ (Some "t") empty_world "[1]" (PList [PInt 1])).
  - reflexivity.
  - reflexivity.
  - vm_compute. reflexivity.
  - intros items. discriminate.
Defined.

Lemma server_without_command_raises_witness :
  exists ex,
    fst (from_raw_config person_fs [("mcp-servers", PStr (bq "{`s`: {`cmd`: `srv`}}"))]
           (Some "t") empty_world) = Raises ex
    /\ exc_type ex = ValidationError.
Proof.
  apply (server_without_command_raises person_fs _ (Some "t") empty_world
           (bq "{`s`: {`cmd`: `srv`}}") [] [] "s" [("cmd", PStr "srv")]).
  - reflexivity.
  - vm_compute. reflexivity.
  - vm_compute. reflexivity.
  - constructor.
  - intros c. discriminate.
Defined.

Lemma imports_not_list_rejected_witness :
  _parse_template_config "# imports = a.py" = [("imports", PStr "a.py")]
  /\ exists ex,
     fst (from_raw_config person_fs (_parse_template_config "# imports = a.py") (Some "t") empty_world)
     = Raises ex /\ exc_type ex = ValidationError.
Proof.
  split; [vm_compute; reflexivity|].
  apply (proj2 (imports_not_list_rejected person_fs (_parse_template_config "# imports = a.py")
                  (Some "t") empty_world (PStr "a.py") ltac:(vm_compute; reflexivity)
                  ltac:(intros l; discriminate)));
    vm_compute; reflexivity.
Defined.

Lemma render_and_write_effects_witness :
  fst (render_and_write person_env "t/person.py" "out" person_tf None empty_world)
    = Returns "out/person.md"
  /\ exists rendered,
    env_render person_env (template_content person_tf)
      (render_context person_tf
         {| mi_module := {| mod_name := "pydantic_module_7"; mod_ns := person_ns |};
            mi_classes := _extract_pydantic_classes
              {| mod_name := "pydantic_module_7"; mod_ns := person_ns |} |} None) = Returns rendered
    /\ w_files (snd (render_and_write person_env "t/person.py" "out" person_tf None empty_world))
         !! "out/person.md" = Some rendered
    /\ w_trace (snd (render_and_write person_env "t/person.py" "out" person_tf None empty_world))
       = (w_trace empty_world ++ [EvRender; EvWrite "out/person.md"])%list.
Proof.
  split; [vm_compute; reflexivity|].
  apply (render_and_write_effects person_env "t/person.py" "out" person_tf None empty_world
           "out/person.md").
  vm_compute. reflexivity.
Defined.




